(** * Habit tracker: the [Database] class of [database.py]

    A shallow embedding of the class [Database] (schedule generation,
    check-off, streak and success-rate analytics) together with the
    properties of its natural-language specification.

    Modelling conventions.
    - A [datetime] is an integer count of microseconds since
      1970-01-01 00:00:00, a calendar date an integer count of days since
      1970-01-01, and [strptime_date] places it at midnight.  Python's
      [datetime] ranges from 0001-01-01 to 9999-12-31 and [timedelta] up
      to 999999999 days; building a value beyond raises [OverflowError],
      and so does binding an integer beyond 64 bits to an SQL statement.
      The textual round trip through the store ([isoformat] on insertion,
      [strptime] on reading) is the identity on the generated bounds and
      is not modelled; date arguments are texts that [strptime] accepts,
      given already parsed.
    - The two SQL tables are lists of rows in rowid order; a [SELECT]
      without [ORDER BY] scans them in that order.  [AUTOINCREMENT] is a
      counter per table that only grows.
    - The connection keeps the committed tables and the tables as seen
      inside the open transaction; statements act on the latter and
      [commit] copies it to the former.
    - A method is a function from the connection to an outcome (a value
      or a raised exception) and the connection afterwards.
    - The column [deadlines.task] has INTEGER affinity: a task name is
      stored there, and compared there, after SQLite's coercion of numeric
      literals ('007' and '7' are the same value).  The coercion is a
      parameter of the development, the class [Affinity]; the column
      [habits.task] is TEXT and keeps and compares the name as given.
    - The quotient returned by [get_success_rate] is kept as an exact
      rational in lowest terms; the float of the program is its nearest
      double, and rounding is monotone and exact on 0 and 1. *)

From Stdlib Require Import ZArith List String Bool QArith Lia Sorted.
Import ListNotations.

Local Open Scope Z_scope.

(** ** Time *)

Definition datetime : Type := Z.
Definition date : Type := Z.

Definition usec_per_day : Z := 86400000000.

(** The range of [datetime]: 0001-01-01 00:00:00 is 719162 days before
    1970-01-01, and 9999-12-31 23:59:59.999999 is the last microsecond of
    day 2932896. *)
Definition datetime_min : Z := - 719162 * usec_per_day.
Definition datetime_max : Z := 2932897 * usec_per_day - 1.

(** The largest number of days of a [timedelta]. *)
Definition timedelta_max_days : Z := 999999999.

(** [timedelta(days=d)] *)
Definition timedelta (days : Z) : Z := days * usec_per_day.

(** [datetime.strptime(s, "%Y-%m-%d")]: midnight of the day. *)
Definition strptime_date (d : date) : datetime := d * usec_per_day.

(** [datetime.now().strftime("%Y-%m-%d")]: the day [now] falls in. *)
Definition strftime_date (now : datetime) : date := now / usec_per_day.

(** ** Rows and tables *)

Record HabitRow : Type := mkHabit {
  habit_id : Z;
  habit_task : string;
  habit_period : Z;
  habit_start_date : date;
  habit_duration : Z
}.

Record DeadlineRow : Type := mkDeadline {
  deadline_id : Z;
  deadline_task : string;
  from_date : datetime;
  to_date : datetime;
  checked_off : Z;
  completion_date : option datetime
}.

Record Tables : Type := mkTables {
  habits : list HabitRow;
  deadlines : list DeadlineRow;
  habits_seq : Z;
  deadlines_seq : Z
}.

Record Connection : Type := mkConnection {
  committed : Tables;
  in_txn : Tables
}.

(** [create_tables] on a fresh database file. *)
Definition empty_tables : Tables := mkTables [] [] 0 0.
Definition fresh_connection : Connection := mkConnection empty_tables empty_tables.

(** ** Outcomes and the method monad *)

Inductive exn : Type :=
| ZeroDivisionError
| UnboundLocalError
| OverflowError.

Inductive outcome (A : Type) : Type :=
| Returned (a : A)
| Raised (e : exn).
Arguments Returned {A} a.
Arguments Raised {A} e.

Definition Op (A : Type) : Type := Connection -> outcome A * Connection.

Definition ret {A : Type} (a : A) : Op A := fun c => (Returned a, c).

Definition raise {A : Type} (e : exn) : Op A := fun c => (Raised e, c).

Definition bind {A B : Type} (m : Op A) (k : A -> Op B) : Op B :=
  fun c =>
    match m c with
    | (Returned a, c') => k a c'
    | (Raised e, c') => (Raised e, c')
    end.

Notation "x <- m ;; k" := (bind m (fun x => k))
  (at level 61, m at next level, right associativity).
Notation "m ;;; k" := (bind m (fun _ => k))
  (at level 61, right associativity).

(** A [for] loop whose body is a statement. *)
Fixpoint for_each {A : Type} (l : list A) (body : A -> Op unit) : Op unit :=
  match l with
  | [] => ret tt
  | x :: l' => body x ;;; for_each l' body
  end.

(** ** Python arithmetic *)

(** [a // b] on integers: floor division, raising on a zero divisor. *)
Definition floordiv (a b : Z) : Op Z :=
  if b =? 0 then raise ZeroDivisionError else ret (a / b).

(** [range(n)] *)
Definition range (n : Z) : list Z := map Z.of_nat (seq 0 (Z.to_nat n)).

(** Truth value of an integer. *)
Definition truthy (z : Z) : bool := negb (z =? 0).

(** [a <= x <= b] *)
Definition between (a x b : Z) : bool := (a <=? x) && (x <=? b).

(** [timedelta(days=d)] *)
Definition timedelta_of (days : Z) : Op Z :=
  if Z.abs days <=? timedelta_max_days
  then ret (timedelta days)
  else raise OverflowError.

(** The result of [datetime + timedelta] or [datetime - timedelta]. *)
Definition datetime_of (t : Z) : Op datetime :=
  if between datetime_min t datetime_max then ret t else raise OverflowError.

(** An integer bound to an SQL parameter fits in 64 bits. *)
Definition in_int64 (z : Z) : bool :=
  between (- 9223372036854775808) z 9223372036854775807.

(** ** SQLite's column affinity *)

(** What a column of INTEGER affinity makes of a text, written as the text
    of the value it stores and compares: a numeric literal becomes the
    number, any other text stays as it is. *)
Class Affinity : Type := affinity : string -> string.

(** The affinity on names that are not numeric literals, which the column
    keeps as they are; the examples use such names only. *)
#[global] Instance plain_names : Affinity := fun s => s.

(** ** SQL statements *)

Definition on_txn (f : Tables -> Tables) : Op unit :=
  fun c => (Returned tt, mkConnection (committed c) (f (in_txn c))).

Definition commit : Op unit :=
  fun c => (Returned tt, mkConnection (in_txn c) (in_txn c)).

(** [INSERT INTO habits (task, period, start_date, duration) VALUES (?, ?, ?, ?)] *)
Definition sql_insert_habit (task : string) (period : Z) (start : date)
    (duration : Z) (t : Tables) : Tables :=
  let i := habits_seq t + 1 in
  mkTables (habits t ++ [mkHabit i task period start duration])
           (deadlines t) i (deadlines_seq t).

(** [INSERT INTO deadlines (task, from_date, to_date, checked_off) VALUES (?, ?, ?, 0)] *)
Definition sql_insert_deadline {A : Affinity} (task : string) (f t_ : datetime)
    (t : Tables) : Tables :=
  let i := deadlines_seq t + 1 in
  mkTables (habits t)
           (deadlines t ++ [mkDeadline i (affinity task) f t_ 0 None])
           (habits_seq t) i.

Definition set_checked (at_ : datetime) (id : Z) (r : DeadlineRow) : DeadlineRow :=
  if deadline_id r =? id
  then mkDeadline (deadline_id r) (deadline_task r) (from_date r) (to_date r)
                  1 (Some at_)
  else r.

(** [UPDATE deadlines SET checked_off = 1, completion_date = ? WHERE id = ?] *)
Definition sql_check_off (at_ : datetime) (id : Z) (t : Tables) : Tables :=
  mkTables (habits t) (map (set_checked at_ id) (deadlines t))
           (habits_seq t) (deadlines_seq t).

(** [DELETE FROM habits WHERE task = ?] and [DELETE FROM deadlines WHERE task = ?] *)
Definition sql_delete_task {A : Affinity} (task : string) (t : Tables)
    : Tables :=
  mkTables (filter (fun h => negb (String.eqb (habit_task h) task)) (habits t))
           (filter (fun d => negb (String.eqb (deadline_task d) (affinity task)))
                   (deadlines t))
           (habits_seq t) (deadlines_seq t).

(** [DELETE FROM habits] and [DELETE FROM deadlines] *)
Definition sql_delete_all (t : Tables) : Tables :=
  mkTables [] [] (habits_seq t) (deadlines_seq t).

(** [db_search("*", "deadlines", "WHERE task = ?", (task,), cursor)] *)
Definition deadlines_of {A : Affinity} (task : string) (t : Tables)
    : list DeadlineRow :=
  filter (fun d => String.eqb (deadline_task d) (affinity task)) (deadlines t).

Definition search_deadlines {A : Affinity} (task : string)
    : Op (list DeadlineRow) :=
  fun c => (Returned (deadlines_of task (in_txn c)), c).

(** [db_search("*", "habits", "WHERE period = ?", (p,), cursor)] *)
Definition search_habits_by_period (p : Z) : Op (list HabitRow) :=
  fun c => (Returned (filter (fun h => habit_period h =? p) (habits (in_txn c))), c).

(** [db_search("*", "habits", "", None, cursor)] *)
Definition search_habits : Op (list HabitRow) :=
  fun c => (Returned (habits (in_txn c)), c).

(** ** The methods of [Database] *)

(** [insert_habit(task, period, duration=365, date=None)].  [duration]
    is [None] when the argument is omitted; [date] is [None] when it is
    omitted or the empty string. *)
Definition interval_bound (start_date : date) (days : Z) : Op datetime :=
  delta <- timedelta_of days ;;
  datetime_of (strptime_date start_date + delta).

Definition insert_habit {A : Affinity} (now : datetime) (task : string)
    (period : Z) (duration : option Z) (date_ : option date) : Op unit :=
  let duration := match duration with Some d => d | None => 365 end in
  let start_date :=
    match date_ with Some d => d | None => strftime_date now end in
  (if in_int64 period && in_int64 duration
   then on_txn (sql_insert_habit task period start_date duration)
   else raise OverflowError) ;;;
  q <- floordiv duration period ;;
  let habit_intervlas := q + 1 in
  for_each (range habit_intervlas) (fun interval =>
    from_ <- interval_bound start_date (interval * period) ;;
    to_ <- interval_bound start_date ((interval + 1) * period) ;;
    on_txn (sql_insert_deadline task from_ to_)) ;;;
  commit.

(** [list_habits(habit_period=None)] *)
Definition list_habits (habit_period : option Z) : Op (list HabitRow) :=
  match habit_period with
  | Some p => if truthy p then search_habits_by_period p else search_habits
  | None => search_habits
  end.

(** [delete_habit(task=None)]; [None] also stands for the empty string. *)
Definition delete_habit {A : Affinity} (task : option string) : Op unit :=
  match task with
  | Some t => on_txn (sql_delete_task t)
  | None => on_txn sql_delete_all
  end ;;;
  commit.

(** The scan of [check_off_habit]: the local [id] after the loop,
    [None] while it is still unbound. *)
Fixpoint scan_for_id (current_time : datetime) (db_data : list DeadlineRow)
    : option Z :=
  match db_data with
  | [] => None
  | data :: rest =>
      if between (from_date data) current_time (to_date data)
      then Some (deadline_id data)
      else scan_for_id current_time rest
  end.

(** [check_off_habit(task, date=None)]; [date] is already parsed, [None]
    when omitted or empty. *)
Definition check_off_habit {A : Affinity} (now : datetime) (task : string)
    (date_ : option datetime) : Op unit :=
  db_data <- search_deadlines task ;;
  let current_time := match date_ with Some d => d | None => now end in
  match scan_for_id current_time db_data with
  | Some id => on_txn (sql_check_off current_time id) ;;; commit
  | None => raise UnboundLocalError
  end.

(** The loop of [get_streak] from a given pair of counters. *)
Fixpoint streak_loop (db_data : list DeadlineRow) (max_streak running_streak : Z)
    : Z :=
  match db_data with
  | [] => max_streak
  | data :: rest =>
      if truthy (checked_off data)
      then
        let running_streak := running_streak + 1 in
        let max_streak :=
          if max_streak <? running_streak then running_streak else max_streak in
        streak_loop rest max_streak running_streak
      else streak_loop rest max_streak 0
  end.

(** [get_streak(task)] *)
Definition get_streak {A : Affinity} (task : string) : Op Z :=
  db_data <- search_deadlines task ;;
  ret (streak_loop db_data 0 0).

(** The comprehension of [get_success_rate]. *)
Definition in_window (from_ current_time : datetime) (data : DeadlineRow) : bool :=
  between from_ (to_date data) current_time
  || between from_ (from_date data) current_time.

Definition sum_checked (l : list DeadlineRow) : Z :=
  fold_right (fun d acc => checked_off d + acc) 0 l.

(** [a / b] on integers, with the handler of [get_success_rate] for a
    zero divisor; the quotient is kept in lowest terms, so that equal
    quotients are equal values. *)
Definition rate (check_off_sum : Z) (n : nat) : Q :=
  match n with
  | O => 0%Q
  | S _ => Qred (Qmake check_off_sum (Pos.of_nat n))
  end.

Definition window_days (duration : option Z) : Z :=
  match duration with
  | Some d => if truthy d then d else 30
  | None => 30
  end.

(** [get_success_rate(task, duration)] *)
Definition get_success_rate {A : Affinity} (now : datetime) (task : string)
    (duration : option Z) : Op Q :=
  db_data <- search_deadlines task ;;
  let duration := window_days duration in
  let current_time := now in
  delta <- timedelta_of duration ;;
  from_ <- datetime_of (current_time - delta) ;;
  let filtered := filter (in_window from_ current_time) db_data in
  ret (rate (sum_checked filtered) (List.length filtered)).

(** ** Specification-side definitions *)

(** Row [i] of the schedule of a habit, as the specification describes
    it, with the id the store assigns after [seq0]. *)
Definition scheduled_row {A : Affinity} (task : string) (start : date)
    (period seq0 i : Z) : DeadlineRow :=
  mkDeadline (seq0 + 1 + i) (affinity task)
             (strptime_date start + timedelta (i * period))
             (strptime_date start + timedelta ((i + 1) * period))
             0 None.

(** The comprehension of [get_success_rate] for a window that is in
    range. *)
Definition filtered_data (now : datetime) (duration : option Z)
    (db_data : list DeadlineRow) : list DeadlineRow :=
  let current_time := now in
  let from_ := current_time - timedelta (window_days duration) in
  filter (in_window from_ current_time) db_data.

(** The window of [get_success_rate] can be built: its length is a
    [timedelta] and its start a [datetime]. *)
Definition window_in_range (now : datetime) (duration : option Z) : bool :=
  (Z.abs (window_days duration) <=? timedelta_max_days) &&
  between datetime_min (now - timedelta (window_days duration)) datetime_max.

(** A bound [days] after the start date can be built, and so can both
    bounds of interval [i]. *)
Definition bound_ok (start : date) (days : Z) : bool :=
  (Z.abs days <=? timedelta_max_days) &&
  between datetime_min (strptime_date start + timedelta days) datetime_max.

Definition interval_ok (start : date) (period i : Z) : bool :=
  bound_ok start (i * period) && bound_ok start ((i + 1) * period).

(** The longest prefix whose elements all pass a test. *)
Fixpoint take_while {X : Type} (p : X -> bool) (l : list X) : list X :=
  match l with
  | [] => []
  | x :: rest => if p x then x :: take_while p rest else []
  end.

(** The intervals [insert_habit] writes before a bound goes out of range. *)
Definition written (start : date) (period count : Z) : list Z :=
  take_while (interval_ok start period) (range count).

(** Rows in chronological order: a stable sort by [from_date]. *)
Fixpoint insert_by_from (d : DeadlineRow) (l : list DeadlineRow)
    : list DeadlineRow :=
  match l with
  | [] => [d]
  | x :: rest =>
      if from_date d <=? from_date x then d :: l else x :: insert_by_from d rest
  end.

Definition chronological (l : list DeadlineRow) : list DeadlineRow :=
  fold_right insert_by_from [] l.

(** Ids of the deadline rows are pairwise distinct and were handed out
    by the counter. *)
Definition wf_tables (t : Tables) : Prop :=
  NoDup (map deadline_id (deadlines t)) /\
  Forall (fun d => deadline_id d <= deadlines_seq t) (deadlines t).

(** An interval counts as completed when its flag is truthy. *)
Definition completed (d : DeadlineRow) : bool := truthy (checked_off d).

(** The row after a check-off at [at_]. *)
Definition mark (at_ : datetime) (r : DeadlineRow) : DeadlineRow :=
  mkDeadline (deadline_id r) (deadline_task r) (from_date r) (to_date r)
             1 (Some at_).

(** [contains at_ r]: [from_instant <= at_instant <= to_instant]. *)
Definition contains (at_ : datetime) (r : DeadlineRow) : bool :=
  between (from_date r) at_ (to_date r).

(** The streak algorithm in the specification's words: [running = 0],
    [max = 0]; on a completed interval [running += 1] and
    [max = max(max, running)], otherwise [running = 0]. *)
Fixpoint spec_streak_loop (flags : list bool) (max running : Z) : Z :=
  match flags with
  | [] => max
  | true :: rest => spec_streak_loop rest (Z.max max (running + 1)) (running + 1)
  | false :: rest => spec_streak_loop rest max 0
  end.

Definition spec_max_streak (flags : list bool) : Z := spec_streak_loop flags 0 0.

(** [seg] is a run of [rows]: consecutive rows, all completed. *)
Definition is_run (rows seg : list DeadlineRow) : Prop :=
  (exists l1 l2, rows = l1 ++ seg ++ l2) /\
  Forall (fun d => completed d = true) seg.

(** Length of the run that starts at the head, and of the longest run. *)
Fixpoint leading_run (rows : list DeadlineRow) : nat :=
  match rows with
  | [] => O
  | d :: rest => if completed d then S (leading_run rest) else O
  end.

Fixpoint longest_run (rows : list DeadlineRow) : nat :=
  match rows with
  | [] => O
  | _ :: rest => Nat.max (leading_run rows) (longest_run rest)
  end.

(** The scenario of the specification: days are counted from 1970-01-01,
    so 2024-01-01 is day 19723. *)
Definition day_2024_01_01 : date := 19723.

Definition scenario : Connection :=
  snd (insert_habit 0 "run" 7 (Some 30) (Some day_2024_01_01) fresh_connection).

(** A habit whose only week was checked off, and the same store after a
    second habit of the same name was added for the following week and
    checked off as well. *)
Definition week_one_done : Connection :=
  snd (check_off_habit 0 "run" (Some (strptime_date 19725))
         (snd (insert_habit 0 "run" 7 (Some 1) (Some day_2024_01_01)
                 fresh_connection))).

Definition week_two_done : Connection :=
  snd (check_off_habit 0 "run" (Some (strptime_date 19732))
         (snd (insert_habit 0 "run" 7 (Some 1) (Some 19730) week_one_done))).

(** The scenario with the intervals 1, 2, 4 and 5 checked off. *)
Definition scenario_TTFTT : Connection :=
  let step d c := snd (check_off_habit 0 "run" (Some (strptime_date d)) c) in
  step 19752 (step 19745 (step 19731 (step 19724 scenario))).

(** ** Sessions *)

(** A string argument under [if arg:]: the empty string counts as absent. *)
Definition nonempty (s : option string) : option string :=
  match s with
  | Some EmptyString => None
  | _ => s
  end.

(** What a method returns. *)
Inductive value : Type :=
| VNone
| VHabits (rows : list HabitRow)
| VInt (z : Z)
| VFloat (q : Q).

(** A call of one of the methods of [Database], with its arguments and,
    where the method reads the clock, the time of the call. *)
Inductive call : Type :=
| Call_insert_habit (now : datetime) (task : string) (period : Z)
    (duration : option Z) (date_ : option date)
| Call_list_habits (habit_period : option Z)
| Call_delete_habit (task : option string)
| Call_check_off_habit (now : datetime) (task : string)
    (date_ : option datetime)
| Call_get_streak (task : string)
| Call_get_success_rate (now : datetime) (task : string)
    (duration : option Z).

Definition exec {A : Affinity} (k : call) : Op value :=
  match k with
  | Call_insert_habit now task period duration date_ =>
      insert_habit now task period duration date_ ;;; ret VNone
  | Call_list_habits habit_period =>
      rows <- list_habits habit_period ;; ret (VHabits rows)
  | Call_delete_habit task => delete_habit (nonempty task) ;;; ret VNone
  | Call_check_off_habit now task date_ =>
      check_off_habit now task date_ ;;; ret VNone
  | Call_get_streak task => z <- get_streak task ;; ret (VInt z)
  | Call_get_success_rate now task duration =>
      q <- get_success_rate now task duration ;; ret (VFloat q)
  end.

(** The connection after a sequence of calls on a fresh database; a call
    that raises leaves the connection open, as the class does. *)
Definition session_from {A : Affinity} (c : Connection) (ks : list call)
    : Connection :=
  fold_left (fun c k => snd (exec k c)) ks c.

Definition session {A : Affinity} (ks : list call) : Connection :=
  session_from fresh_connection ks.

(** A deadline row is either untouched or checked off with its instant. *)
Definition row_state_ok (d : DeadlineRow) : Prop :=
  (checked_off d = 0 /\ completion_date d = None) \/
  (checked_off d = 1 /\ exists at_, completion_date d = Some at_).

(** A deadline row belongs to a habit row whose task name the column
    coerces to the row's task value, and is one period long. *)
Definition has_habit {A : Affinity} (t : Tables) (d : DeadlineRow) : Prop :=
  exists h, In h (habits t) /\ affinity (habit_task h) = deadline_task d /\
            to_date d = from_date d + timedelta (habit_period h).

Definition store_ok {A : Affinity} (t : Tables) : Prop :=
  wf_tables t /\
  NoDup (map habit_id (habits t)) /\
  Forall (fun h => habit_id h <= habits_seq t) (habits t) /\
  Forall row_state_ok (deadlines t) /\
  Forall (has_habit t) (deadlines t).

(** The tables after each branch of the methods that write. *)
Definition inserted {A : Affinity} (now : datetime) (task : string)
    (period : Z) (duration : option Z) (date_ : option date) (t : Tables)
    : Tables :=
  let d := match duration with Some d => d | None => 365 end in
  let start := match date_ with Some s => s | None => strftime_date now end in
  let done := written start period (d / period + 1) in
  mkTables (habits t ++ [mkHabit (habits_seq t + 1) task period start d])
           (deadlines t ++
            map (scheduled_row task start period (deadlines_seq t)) done)
           (habits_seq t + 1)
           (deadlines_seq t + Z.of_nat (List.length done)).

(** The week of 2024-01-15 created and checked off first, then the weeks
    of 01-01 and 01-08 under the same name, the first of them checked off. *)
Definition streak_out_of_order : Connection :=
  snd (check_off_habit 0 "run" (Some (strptime_date 19725))
    (snd (insert_habit 0 "run" 7 (Some 7) (Some day_2024_01_01)
      (snd (check_off_habit 0 "run" (Some (strptime_date 19740))
        (snd (insert_habit 0 "run" 7 (Some 1) (Some 19737)
                fresh_connection))))))).

(** Two habits, "run" and "swim", each with the intervals of the
    scenario. *)
Definition two_habits : Connection :=
  snd (insert_habit 0 "swim" 7 (Some 30) (Some day_2024_01_01) scenario).

(** One name created twice, the later weeks first. *)
Definition out_of_order : Connection :=
  snd (insert_habit 0 "run" 7 (Some 1) (Some day_2024_01_01)
         (snd (insert_habit 0 "run" 7 (Some 1) (Some 19730)
                 fresh_connection))).

(** One weekly habit created twice under the same name. *)
Definition created_twice : Connection :=
  snd (insert_habit 0 "run" 7 (Some 1) (Some day_2024_01_01)
         (snd (insert_habit 0 "run" 7 (Some 1) (Some day_2024_01_01)
                 fresh_connection))).

(** Number of completed rows. *)
Definition count_completed (rows : list DeadlineRow) : nat :=
  List.length (filter completed rows).

(** ** Schedule generation *)

Lemma take_while_all {X : Type} (p : X -> bool) (l : list X) :
  forallb p l = true -> take_while p l = l.
Proof.
  induction l as [|x l IH]; cbn [forallb take_while]; [reflexivity|].
  intros H. apply andb_true_iff in H. destruct H as [-> H].
  rewrite (IH H). reflexivity.
Qed.

Lemma take_while_In {X : Type} (p : X -> bool) (l : list X) (x : X) :
  In x (take_while p l) -> In x l /\ p x = true.
Proof.
  induction l as [|y l IH]; cbn [take_while]; [intros []|].
  destruct (p y) eqn:E; [|intros []].
  intros [<-|H]; [split; [left; reflexivity | exact E]|].
  destruct (IH H) as [H1 H2]. split; [right; exact H1 | exact H2].
Qed.

Lemma take_while_range (p : Z -> bool) (n : nat) :
  forall a : nat,
    take_while p (map Z.of_nat (seq a n)) =
    map Z.of_nat
        (seq a (List.length (take_while p (map Z.of_nat (seq a n))))).
Proof.
  induction n as [|n IH]; intros a; [reflexivity|].
  cbn [seq map take_while]. destruct (p (Z.of_nat a)); [|reflexivity].
  cbn [List.length seq map]. f_equal. apply IH.
Qed.

Lemma written_range (start : date) (period count : Z) :
  written start period count =
  map Z.of_nat (seq 0 (List.length (written start period count))).
Proof. unfold written, range. apply take_while_range. Qed.

Lemma written_In (start : date) (period count i : Z) :
  In i (written start period count) -> 0 <= i < count.
Proof.
  intros H. apply take_while_In in H. destruct H as [H _].
  unfold range in H. apply in_map_iff in H. destruct H as (j & <- & Hj).
  apply in_seq in Hj. lia.
Qed.

Lemma timedelta_of_run (days : Z) (c : Connection) :
  timedelta_of days c =
  if Z.abs days <=? timedelta_max_days
  then (Returned (timedelta days), c)
  else (Raised OverflowError, c).
Proof. unfold timedelta_of. destruct (_ <=? _); reflexivity. Qed.

Lemma datetime_of_run (t : Z) (c : Connection) :
  datetime_of t c =
  if between datetime_min t datetime_max
  then (Returned t, c)
  else (Raised OverflowError, c).
Proof. unfold datetime_of. destruct (between _ _ _); reflexivity. Qed.

Lemma interval_bound_run (start : date) (days : Z) (c : Connection) :
  interval_bound start days c =
  if bound_ok start days
  then (Returned (strptime_date start + timedelta days), c)
  else (Raised OverflowError, c).
Proof.
  unfold interval_bound, bind, bound_ok. rewrite timedelta_of_run.
  destruct (Z.abs days <=? timedelta_max_days); cbn [andb]; [|reflexivity].
  apply datetime_of_run.
Qed.

Lemma insert_loop_run {A : Affinity} (task : string) (start : date)
    (period : Z) (l : list Z) :
  forall c : Connection,
    for_each l (fun interval =>
      from_ <- interval_bound start (interval * period) ;;
      to_ <- interval_bound start ((interval + 1) * period) ;;
      on_txn (sql_insert_deadline task from_ to_)) c =
    (if forallb (interval_ok start period) l
     then Returned tt else Raised OverflowError,
     mkConnection (committed c)
       (fold_left (fun t i =>
                     sql_insert_deadline task
                       (strptime_date start + timedelta (i * period))
                       (strptime_date start + timedelta ((i + 1) * period)) t)
                  (take_while (interval_ok start period) l) (in_txn c))).
Proof.
  induction l as [|i l IH]; intros c.
  - destruct c; reflexivity.
  - cbn [for_each forallb take_while]. unfold bind at 1. unfold bind at 1.
    rewrite interval_bound_run. unfold interval_ok at 1 3.
    destruct (bound_ok start (i * period)); cbn [andb];
      [|destruct c; reflexivity].
    unfold bind at 1. rewrite interval_bound_run.
    destruct (bound_ok start ((i + 1) * period)); [|destruct c; reflexivity].
    unfold on_txn at 1. rewrite IH. reflexivity.
Qed.

Lemma insert_deadlines_from {A : Affinity} (task : string)
    (F G : Z -> datetime) (n : nat) :
  forall (a : nat) (t : Tables),
    fold_left (fun t i => sql_insert_deadline task (F i) (G i) t)
              (map Z.of_nat (seq a n)) t =
    mkTables (habits t)
             (deadlines t ++
              map (fun i => mkDeadline (deadlines_seq t + 1 + (i - Z.of_nat a))
                                       (affinity task) (F i) (G i) 0 None)
                  (map Z.of_nat (seq a n)))
             (habits_seq t)
             (deadlines_seq t + Z.of_nat n).
Proof.
  induction n as [|n IH]; intros a t.
  - cbn. rewrite app_nil_r, Z.add_0_r. destruct t; reflexivity.
  - cbn [seq map fold_left]. rewrite IH.
    unfold sql_insert_deadline; cbn [habits deadlines habits_seq deadlines_seq].
    rewrite <- app_assoc. cbn [app].
    f_equal; [| lia].
    f_equal. f_equal.
    + f_equal. lia.
    + rewrite !map_map. apply map_ext_in. intros i Hi.
      apply in_seq in Hi. f_equal. lia.
Qed.

Lemma range_length (n : Z) : Z.of_nat (List.length (range n)) = Z.max 0 n.
Proof. unfold range. rewrite length_map, length_seq. lia. Qed.

Lemma range_nth (n : Z) (i : nat) (k : Z) :
  nth_error (range n) i = Some k -> k = Z.of_nat i.
Proof.
  unfold range. intros H.
  rewrite nth_error_map in H.
  destruct (nth_error (seq 0 (Z.to_nat n)) i) as [j|] eqn:E; [|discriminate].
  injection H as <-.
  pose proof (nth_error_nth _ _ 0%nat E) as Hn.
  assert (i < List.length (seq 0 (Z.to_nat n)))%nat as Hlt
    by (apply nth_error_Some; congruence).
  rewrite length_seq in Hlt.
  rewrite seq_nth in Hn by exact Hlt. lia.
Qed.

Lemma range_In (k n : Z) : In k (range n) <-> 0 <= k < n.
Proof.
  unfold range. rewrite in_map_iff. split.
  - intros (j & <- & Hj). apply in_seq in Hj. lia.
  - intros H. exists (Z.to_nat k). split; [lia|]. apply in_seq. lia.
Qed.

Lemma inserted_as_loop {A : Affinity} (now : datetime) (task : string)
    (period : Z) (duration : option Z) (date_ : option date) (t : Tables) :
  let d := match duration with Some d => d | None => 365 end in
  let start := match date_ with Some s => s | None => strftime_date now end in
  inserted now task period duration date_ t =
  fold_left (fun t i =>
               sql_insert_deadline task
                 (strptime_date start + timedelta (i * period))
                 (strptime_date start + timedelta ((i + 1) * period)) t)
            (written start period (d / period + 1))
            (sql_insert_habit task period start d t).
Proof.
  intros d start. unfold inserted. fold d start.
  set (done := written start period (d / period + 1)).
  assert (done = map Z.of_nat (seq 0 (List.length done))) as Hdone
    by apply written_range.
  rewrite Hdone at 3.
  rewrite (insert_deadlines_from task
             (fun i => strptime_date start + timedelta (i * period))
             (fun i => strptime_date start + timedelta ((i + 1) * period))).
  unfold sql_insert_habit; cbn [habits deadlines habits_seq deadlines_seq].
  rewrite <- Hdone. f_equal. f_equal.
  apply map_ext. intros i. unfold scheduled_row. f_equal. lia.
Qed.

(** What [insert_habit] does, outcome and connection, case by case. *)
Lemma insert_habit_effect {A : Affinity} (now : datetime) (task : string)
    (period : Z) (duration : option Z) (date_ : option date)
    (c : Connection) :
  let d := match duration with Some d => d | None => 365 end in
  let start := match date_ with Some s => s | None => strftime_date now end in
  insert_habit now task period duration date_ c =
  if in_int64 period && in_int64 d
  then
    if period =? 0
    then (Raised ZeroDivisionError,
          mkConnection (committed c)
                       (sql_insert_habit task period start d (in_txn c)))
    else
      if forallb (interval_ok start period) (range (d / period + 1))
      then (Returned tt,
            mkConnection (inserted now task period duration date_ (in_txn c))
                         (inserted now task period duration date_ (in_txn c)))
      else (Raised OverflowError,
            mkConnection (committed c)
                         (inserted now task period duration date_ (in_txn c)))
  else (Raised OverflowError, c).
Proof.
  intros d start. unfold insert_habit. fold d start.
  unfold bind at 1.
  destruct (in_int64 period && in_int64 d); [|reflexivity].
  unfold on_txn at 1. unfold bind at 1. unfold floordiv.
  destruct (period =? 0); [reflexivity|].
  unfold ret at 1. unfold bind at 1.
  rewrite insert_loop_run. cbn [committed in_txn].
  rewrite inserted_as_loop. fold d start. unfold written.
  destruct (forallb (interval_ok start period) (range (d / period + 1)));
    reflexivity.
Qed.

Lemma schedule_all_ok (start : date) (period count : Z) :
  (forall i, 0 <= i <= count ->
     Z.abs (i * period) <= timedelta_max_days /\
     datetime_min <= strptime_date start + timedelta (i * period) <= datetime_max) ->
  forallb (interval_ok start period) (range count) = true.
Proof.
  intros H. apply forallb_forall. intros i Hi. apply range_In in Hi.
  assert (forall k, 0 <= k <= count -> bound_ok start (k * period) = true) as Hb.
  { intros k Hk. destruct (H k Hk) as (H1 & H2 & H3).
    unfold bound_ok, between.
    apply andb_true_iff. split; [apply Z.leb_le, H1|].
    apply andb_true_iff. split; apply Z.leb_le; assumption. }
  unfold interval_ok. rewrite !Hb by lia. reflexivity.
Qed.

Lemma schedule_bounds_forward (start : date) (period count : Z) :
  0 < period ->
  count * period <= timedelta_max_days ->
  datetime_min <= strptime_date start ->
  strptime_date start + timedelta (count * period) <= datetime_max ->
  forall i, 0 <= i <= count ->
    Z.abs (i * period) <= timedelta_max_days /\
    datetime_min <= strptime_date start + timedelta (i * period) <= datetime_max.
Proof.
  intros Hp Hlen Hlo Hhi i Hi.
  assert (0 <= i * period) by (apply Z.mul_nonneg_nonneg; lia).
  assert (i * period <= count * period)
    by (apply Z.mul_le_mono_nonneg_r; lia).
  unfold timedelta, usec_per_day in *. lia.
Qed.

Lemma inserted_full {A : Affinity} (now : datetime) (task : string)
    (period : Z) (duration : option Z) (date_ : option date) (t : Tables) :
  let d := match duration with Some d => d | None => 365 end in
  let start := match date_ with Some s => s | None => strftime_date now end in
  forallb (interval_ok start period) (range (d / period + 1)) = true ->
  inserted now task period duration date_ t =
  mkTables (habits t ++ [mkHabit (habits_seq t + 1) task period start d])
           (deadlines t ++
            map (scheduled_row task start period (deadlines_seq t))
                (range (d / period + 1)))
           (habits_seq t + 1)
           (deadlines_seq t + Z.of_nat (List.length (range (d / period + 1)))).
Proof.
  intros d start H. unfold inserted, written. fold d start.
  rewrite (take_while_all _ _ H). reflexivity.
Qed.

(** What [insert_habit] does when the period is not zero, period and
    duration fit 64 bits and every bound can be built. *)
Lemma insert_habit_run {A : Affinity} (now : datetime) (task : string)
    (period duration : Z) (date_ : option date) (c : Connection) :
  period <> 0 ->
  in_int64 period = true -> in_int64 duration = true ->
  let start := match date_ with Some d => d | None => strftime_date now end in
  forallb (interval_ok start period) (range (duration / period + 1)) = true ->
  let t := in_txn c in
  let t' :=
    mkTables (habits t ++ [mkHabit (habits_seq t + 1) task period start duration])
             (deadlines t ++
              map (scheduled_row task start period (deadlines_seq t))
                  (range (duration / period + 1)))
             (habits_seq t + 1)
             (deadlines_seq t + Z.of_nat (List.length (range (duration / period + 1)))) in
  insert_habit now task period (Some duration) date_ c =
  (Returned tt, mkConnection t' t').
Proof.
  intros Hp H1 H2 start Hok t t'.
  rewrite insert_habit_effect. rewrite H1, H2. cbn [andb].
  destruct (Z.eqb_spec period 0); [contradiction|].
  fold start. rewrite Hok.
  rewrite (inserted_full now task period (Some duration) date_ (in_txn c) Hok).
  reflexivity.
Qed.

Lemma in_int64_iff (z : Z) :
  in_int64 z = true <->
  - 9223372036854775808 <= z <= 9223372036854775807.
Proof.
  unfold in_int64, between. rewrite andb_true_iff, !Z.leb_le. reflexivity.
Qed.

(** An omitted [duration] is 365 days. *)
Lemma insert_habit_default_duration {A : Affinity} (now : datetime)
    (task : string) (period : Z) (date_ : option date) (c : Connection) :
  insert_habit now task period None date_ c =
  insert_habit now task period (Some 365) date_ c.
Proof. reflexivity. Qed.

Lemma deadlines_of_scheduled {A : Affinity} (task : string) (start : date)
    (period seq0 : Z) (l : list Z) :
  filter (fun d => String.eqb (deadline_task d) (affinity task))
         (map (scheduled_row task start period seq0) l) =
  map (scheduled_row task start period seq0) l.
Proof.
  induction l as [|i l IH]; [reflexivity|].
  cbn [map filter]. cbn [scheduled_row deadline_task].
  rewrite String.eqb_refl. f_equal. exact IH.
Qed.

(** C1, as stated, fails for large values: with [period = 1000000] and
    [duration = 3000000] from 2024-01-01 the end of the third interval lies
    after 9999-12-31; [insert_habit] raises [OverflowError] after writing
    two of the four intervals, and commits nothing. *)
Lemma insert_habit_overflow_counterexample :
  let r := insert_habit 0 "big" 1000000 (Some 3000000) (Some day_2024_01_01)
             fresh_connection in
  3000000 / 1000000 + 1 = 4 /\
  fst r = Raised OverflowError /\
  List.length (deadlines (in_txn (snd r))) = 2%nat /\
  deadlines (committed (snd r)) = [].
Proof. vm_compute. repeat split. Qed.

(** C1, amended.  For every start date (given, or today by default) that
    is a date, every [period > 0] and every [duration > 0] that fit 64
    bits, such that the end of the last interval,
    [start + (duration // period + 1) * period] days, is within the ranges
    of [timedelta] and [datetime]: [insert_habit] succeeds, commits, and
    appends to the deadlines table exactly [duration // period + 1] rows of
    the task; row [i] spans
    [[start + i*period days, start + (i+1)*period days]], has
    [checked_off = 0] and no completion date; consecutive rows share their
    boundary and are strictly increasing in [from_date]. *)
Theorem insert_habit_schedule {A : Affinity} (now : datetime) (task : string)
    (period duration : Z) (date_ : option date) (c : Connection) :
  0 < period -> 0 < duration ->
  period <= 9223372036854775807 -> duration <= 9223372036854775807 ->
  let start := match date_ with Some d => d | None => strftime_date now end in
  (duration / period + 1) * period <= timedelta_max_days ->
  datetime_min <= strptime_date start ->
  strptime_date start + timedelta ((duration / period + 1) * period)
    <= datetime_max ->
  exists (rows : list DeadlineRow) (c' : Connection),
    insert_habit now task period (Some duration) date_ c = (Returned tt, c') /\
    committed c' = in_txn c' /\
    deadlines (in_txn c') = deadlines (in_txn c) ++ rows /\
    deadlines_of task (in_txn c') = deadlines_of task (in_txn c) ++ rows /\
    Z.of_nat (List.length rows) = duration / period + 1 /\
    (forall (i : nat) (r : DeadlineRow),
        nth_error rows i = Some r ->
        deadline_task r = affinity task /\
        from_date r = strptime_date start + timedelta (Z.of_nat i * period) /\
        to_date r = strptime_date start + timedelta ((Z.of_nat i + 1) * period) /\
        checked_off r = 0 /\
        completion_date r = None) /\
    (forall (i : nat) (r r' : DeadlineRow),
        nth_error rows i = Some r ->
        nth_error rows (S i) = Some r' ->
        to_date r = from_date r' /\ from_date r < from_date r').
Proof.
  intros Hp Hd Hp64 Hd64 start Hlen Hlo Hhi.
  assert (period <> 0) as Hp0 by lia.
  assert (0 <= duration / period) as Hq by (apply Z.div_pos; lia).
  assert (forallb (interval_ok start period) (range (duration / period + 1))
          = true) as Hok.
  { apply schedule_all_ok.
    apply schedule_bounds_forward; assumption. }
  pose proof (insert_habit_run now task period duration date_ c Hp0) as Hrun.
  cbv zeta in Hrun. fold start in Hrun.
  specialize (Hrun ltac:(apply in_int64_iff; lia) ltac:(apply in_int64_iff; lia)
                   Hok).
  set (rows := map (scheduled_row task start period (deadlines_seq (in_txn c)))
                   (range (duration / period + 1))) in *.
  assert (forall (i : nat) (r : DeadlineRow),
             nth_error rows i = Some r ->
             r = scheduled_row task start period (deadlines_seq (in_txn c))
                               (Z.of_nat i)) as Hnth.
  { intros i r H. subst rows. rewrite nth_error_map in H.
    destruct (nth_error (range (duration / period + 1)) i) as [k|] eqn:E;
      [|discriminate].
    apply range_nth in E. subst k. injection H as <-. reflexivity. }
  eexists rows, _.
  split; [exact Hrun|].
  cbn [committed in_txn deadlines].
  split; [reflexivity|].
  split; [reflexivity|].
  split.
  { unfold deadlines_of. cbn [deadlines]. rewrite filter_app. f_equal.
    subst rows. apply deadlines_of_scheduled. }
  split.
  { subst rows. rewrite length_map, range_length. lia. }
  split.
  - intros i r H. apply Hnth in H. subst r.
    cbn [scheduled_row deadline_task from_date to_date checked_off completion_date].
    repeat split.
  - intros i r r' H H'. apply Hnth in H. apply Hnth in H'. subst r r'.
    cbn [scheduled_row from_date to_date]. unfold timedelta, usec_per_day.
    split; [f_equal; f_equal; lia | nia].
Qed.


Ltac by_computation := vm_compute; first [reflexivity | discriminate].

(** The premises of the amended C1 hold for the scenario of the
    specification ([period = 7], [duration = 30], start 2024-01-01). *)
Lemma insert_habit_schedule_witness :
  exists (rows : list DeadlineRow) (c' : Connection),
    insert_habit 0 "run" 7 (Some 30) (Some day_2024_01_01) fresh_connection
      = (Returned tt, c') /\
    committed c' = in_txn c' /\
    deadlines (in_txn c') = deadlines (in_txn fresh_connection) ++ rows /\
    deadlines_of "run" (in_txn c') =
      deadlines_of "run" (in_txn fresh_connection) ++ rows /\
    Z.of_nat (List.length rows) = 30 / 7 + 1 /\
    (forall (i : nat) (r : DeadlineRow),
        nth_error rows i = Some r ->
        deadline_task r = "run"%string /\
        from_date r = strptime_date day_2024_01_01 + timedelta (Z.of_nat i * 7) /\
        to_date r = strptime_date day_2024_01_01 + timedelta ((Z.of_nat i + 1) * 7) /\
        checked_off r = 0 /\
        completion_date r = None) /\
    (forall (i : nat) (r r' : DeadlineRow),
        nth_error rows i = Some r ->
        nth_error rows (S i) = Some r' ->
        to_date r = from_date r' /\ from_date r < from_date r').
Proof.
  refine (insert_habit_schedule 0 "run" 7 30 (Some day_2024_01_01)
            fresh_connection _ _ _ _ _ _ _); by_computation.
Defined.

(** The scenario of the specification: five intervals, starting on
    2024-01-01, 01-08, 01-15, 01-22 and 01-29, the last ending on 02-05
    (day 19758). *)
Example scenario_intervals :
  map (fun d => (from_date d / usec_per_day, to_date d / usec_per_day,
                 checked_off d, completion_date d))
      (deadlines_of "run" (in_txn scenario)) =
  [ (19723, 19730, 0, None); (19730, 19737, 0, None); (19737, 19744, 0, None);
    (19744, 19751, 0, None); (19751, 19758, 0, None) ].
Proof. vm_compute. reflexivity. Qed.

(** [insert_habit] with a zero period: the division raises after the
    habit row was written inside the transaction; no deadline row is
    written and nothing is committed. *)
Lemma insert_habit_zero_period {A : Affinity} (now : datetime) (task : string)
    (duration : Z) (date_ : option date) (c : Connection) :
  in_int64 duration = true ->
  let start := match date_ with Some d => d | None => strftime_date now end in
  insert_habit now task 0 (Some duration) date_ c =
  (Raised ZeroDivisionError,
   mkConnection (committed c)
                (sql_insert_habit task 0 start duration (in_txn c))).
Proof. intros H start. rewrite insert_habit_effect. rewrite H. reflexivity. Qed.

(** C8, as stated, fails: a request with [period = -7] is not rejected;
    the habit row is created and committed. *)
Lemma insert_habit_negative_period_not_rejected :
  ~ (exists (e : exn) (c' : Connection),
        insert_habit 0 "run" (-7) (Some 30) (Some day_2024_01_01)
                     fresh_connection = (Raised e, c') /\
        habits (in_txn c') = [] /\ deadlines (in_txn c') = []).
Proof.
  intros (e & c' & H & _). vm_compute in H. discriminate H.
Qed.

(** C8, amended.  [insert_habit] does not validate its configuration.
    For [period < 0], and for [period > 0] with [duration <= 0], when period
    and duration fit 64 bits and every bound of the intervals to write is
    within the ranges of [timedelta] and [datetime], it returns normally,
    having committed the habit row and [max(0, duration // period + 1)]
    deadline rows. *)
Theorem insert_habit_unvalidated {A : Affinity} (now : datetime)
    (task : string) (period duration : Z) (date_ : option date)
    (c : Connection) :
  let start := match date_ with Some d => d | None => strftime_date now end in
  period < 0 \/ (0 < period /\ duration <= 0) ->
  - 9223372036854775808 <= period <= 9223372036854775807 ->
  - 9223372036854775808 <= duration <= 9223372036854775807 ->
  (forall i, 0 <= i <= duration / period + 1 ->
     Z.abs (i * period) <= timedelta_max_days /\
     datetime_min <= strptime_date start + timedelta (i * period) <= datetime_max) ->
  exists (rows : list DeadlineRow) (c' : Connection),
    insert_habit now task period (Some duration) date_ c = (Returned tt, c') /\
    committed c' = in_txn c' /\
    habits (in_txn c') =
      habits (in_txn c) ++
      [mkHabit (habits_seq (in_txn c) + 1) task period start duration] /\
    deadlines (in_txn c') = deadlines (in_txn c) ++ rows /\
    Z.of_nat (List.length rows) = Z.max 0 (duration / period + 1).
Proof.
  intros start Hp Hp64 Hd64 Hfit.
  assert (period <> 0) as Hp0 by lia.
  pose proof (insert_habit_run now task period duration date_ c Hp0) as Hrun.
  cbv zeta in Hrun. fold start in Hrun.
  specialize (Hrun ltac:(apply in_int64_iff; exact Hp64)
                   ltac:(apply in_int64_iff; exact Hd64)
                   (schedule_all_ok _ _ _ Hfit)).
  eexists _, _. split; [exact Hrun|].
  cbn [committed in_txn habits deadlines].
  repeat split.
  rewrite length_map. apply range_length.
Qed.

(** Instances of the amended C8: a negative period with a positive
    duration stores the habit with no deadline row; with a negative
    duration it stores five intervals, each ending before it begins. *)
Lemma insert_habit_unvalidated_witness :
  (exists (rows : list DeadlineRow) (c' : Connection),
     insert_habit 0 "run" (-7) (Some 30) (Some day_2024_01_01) fresh_connection
       = (Returned tt, c') /\
     committed c' = in_txn c' /\
     habits (in_txn c') = [mkHabit 1 "run" (-7) day_2024_01_01 30] /\
     deadlines (in_txn c') = rows /\
     Z.of_nat (List.length rows) = 0) /\
  (exists (rows : list DeadlineRow) (c' : Connection),
     insert_habit 0 "run" (-7) (Some (-30)) (Some day_2024_01_01)
                  fresh_connection = (Returned tt, c') /\
     committed c' = in_txn c' /\
     habits (in_txn c') = [mkHabit 1 "run" (-7) day_2024_01_01 (-30)] /\
     deadlines (in_txn c') = rows /\
     Z.of_nat (List.length rows) = 5).
Proof.
  split.
  - refine (insert_habit_unvalidated 0 "run" (-7) 30 (Some day_2024_01_01)
              fresh_connection _ _ _ _).
    + left. reflexivity.
    + split; by_computation.
    + split; by_computation.
    + intros i Hi. exfalso.
      change (30 / -7 + 1) with (-4) in Hi. lia.
  - refine (insert_habit_unvalidated 0 "run" (-7) (-30) (Some day_2024_01_01)
              fresh_connection _ _ _ _).
    + left. reflexivity.
    + split; by_computation.
    + split; by_computation.
    + intros i Hi.
      change (-30 / -7 + 1) with 5 in Hi.
      unfold timedelta_max_days, datetime_min, datetime_max, strptime_date,
        timedelta, usec_per_day, day_2024_01_01. lia.
Defined.


(** ** Check-off *)

Lemma scan_for_id_none (at_ : datetime) (l : list DeadlineRow) :
  scan_for_id at_ l = None <-> Forall (fun r => contains at_ r = false) l.
Proof.
  induction l as [|r l IH]; cbn [scan_for_id].
  - split; [constructor | reflexivity].
  - fold (contains at_ r). destruct (contains at_ r) eqn:E.
    + split; [discriminate|]. intros H. inversion H; congruence.
    + rewrite IH. split.
      * intros H. constructor; assumption.
      * intros H. inversion H; assumption.
Qed.

Lemma scan_for_id_first (at_ : datetime) (l : list DeadlineRow) :
  (exists r, In r l /\ contains at_ r = true) ->
  exists l1 r l2,
    l = l1 ++ r :: l2 /\
    Forall (fun x => contains at_ x = false) l1 /\
    contains at_ r = true /\
    scan_for_id at_ l = Some (deadline_id r).
Proof.
  induction l as [|x l IH]; intros (r & Hin & Hr).
  - destruct Hin.
  - cbn [scan_for_id]. fold (contains at_ x).
    destruct (contains at_ x) eqn:E.
    + exists [], x, l. repeat split; [constructor | assumption].
    + destruct Hin as [->|Hin]; [congruence|].
      destruct IH as (l1 & r' & l2 & -> & Hl1 & Hr' & Hscan);
        [exists r; split; assumption|].
      exists (x :: l1), r', l2.
      repeat split; try assumption.
      constructor; assumption.
Qed.

Lemma filter_split {A : Type} (p : A -> bool) (l l1 l2 : list A) (r : A) :
  filter p l = l1 ++ r :: l2 ->
  exists t1 t2, l = t1 ++ r :: t2 /\ filter p t1 = l1 /\ filter p t2 = l2.
Proof.
  revert l1.
  induction l as [|x l IH]; intros l1 H; cbn [filter] in H.
  - destruct l1; discriminate.
  - destruct (p x) eqn:E.
    + destruct l1 as [|y l1]; cbn [app] in H.
      * injection H as -> <-. exists [], l. repeat split.
      * injection H as -> H. destruct (IH _ H) as (t1 & t2 & -> & <- & <-).
        exists (y :: t1), t2. cbn [filter app]. rewrite E. repeat split.
    + destruct (IH _ H) as (t1 & t2 & -> & <- & <-).
      exists (x :: t1), t2. cbn [filter app]. rewrite E. repeat split.
Qed.

Lemma set_checked_other (at_ : datetime) (id : Z) (l : list DeadlineRow) :
  ~ In id (map deadline_id l) -> map (set_checked at_ id) l = l.
Proof.
  induction l as [|x l IH]; intros H; [reflexivity|].
  cbn [map] in *. unfold set_checked at 1.
  destruct (Z.eqb_spec (deadline_id x) id) as [E|_].
  - exfalso. apply H. left. exact E.
  - f_equal. apply IH. intros Hin. apply H. right. exact Hin.
Qed.

Lemma set_checked_unique (at_ : datetime) (t1 t2 : list DeadlineRow)
    (r : DeadlineRow) :
  NoDup (map deadline_id (t1 ++ r :: t2)) ->
  map (set_checked at_ (deadline_id r)) (t1 ++ r :: t2) = t1 ++ mark at_ r :: t2.
Proof.
  intros H. rewrite map_app in H. cbn [map] in H.
  pose proof (NoDup_remove_2 _ _ _ H) as Hnot.
  rewrite map_app. cbn [map].
  rewrite !set_checked_other.
  - unfold set_checked. rewrite Z.eqb_refl. reflexivity.
  - intros Hin. apply Hnot. apply in_or_app. right. exact Hin.
  - intros Hin. apply Hnot. apply in_or_app. left. exact Hin.
Qed.

(** The store invariant: it holds after [create_tables] and every method
    keeps it, whatever its outcome. *)
Lemma wf_fresh : wf_tables (in_txn fresh_connection).
Proof. split; constructor. Qed.

Lemma wf_insert_deadline {A : Affinity} (task : string) (f t_ : datetime) (t : Tables) :
  wf_tables t -> wf_tables (sql_insert_deadline task f t_ t).
Proof.
  intros [Hnd Hle]. unfold wf_tables, sql_insert_deadline.
  cbn [deadlines deadlines_seq]. split.
  - rewrite map_app. cbn [map deadline_id].
    apply NoDup_app; [exact Hnd | repeat constructor; intros [] |].
    intros a Hin [<-|[]].
    apply in_map_iff in Hin. destruct Hin as (d & Hd & Hin).
    rewrite Forall_forall in Hle. specialize (Hle d Hin). cbn in Hle. lia.
  - apply Forall_app. split.
    + eapply Forall_impl; [|exact Hle]. cbn. intros; lia.
    + constructor; [cbn; lia | constructor].
Qed.

Lemma wf_insert_deadlines {A : Affinity} (task : string) (F G : Z -> datetime) (l : list Z) :
  forall t : Tables,
    wf_tables t ->
    wf_tables (fold_left (fun t i => sql_insert_deadline task (F i) (G i) t) l t).
Proof.
  induction l as [|i l IH]; intros t H; [exact H|].
  cbn [fold_left]. apply IH. apply wf_insert_deadline. exact H.
Qed.

Lemma wf_check_off (at_ : datetime) (id : Z) (t : Tables) :
  wf_tables t -> wf_tables (sql_check_off at_ id t).
Proof.
  intros [Hnd Hle]. unfold wf_tables, sql_check_off.
  cbn [deadlines deadlines_seq].
  assert (forall r, deadline_id (set_checked at_ id r) = deadline_id r) as Hid.
  { intros r. unfold set_checked. destruct (deadline_id r =? id); reflexivity. }
  split.
  - rewrite map_map. rewrite (map_ext _ deadline_id Hid). exact Hnd.
  - apply Forall_map. eapply Forall_impl; [|exact Hle].
    intros r Hr. cbn. rewrite Hid. exact Hr.
Qed.

Lemma distinct_ids_filter (keep : DeadlineRow -> bool) :
  forall rows : list DeadlineRow,
    NoDup (map deadline_id rows) ->
    NoDup (map deadline_id (filter keep rows)).
Proof.
  intros rows. induction rows as [|d rows IH]; cbn [filter map]; intros Hnd.
  - constructor.
  - apply NoDup_cons_iff in Hnd. destruct Hnd as [Hfresh Hrest].
    destruct (keep d); [|exact (IH Hrest)].
    cbn [map]. apply NoDup_cons_iff. split; [|exact (IH Hrest)].
    rewrite in_map_iff. intros (d' & Hid & Hd').
    apply Hfresh. rewrite <- Hid. apply in_map.
    apply filter_In in Hd'. exact (proj1 Hd').
Qed.

Lemma wf_delete_task {A : Affinity} (task : string) (t : Tables) :
  wf_tables t -> wf_tables (sql_delete_task task t).
Proof.
  intros [Hnd Hle]. unfold wf_tables, sql_delete_task.
  cbn [deadlines deadlines_seq]. split.
  - apply distinct_ids_filter. exact Hnd.
  - apply Forall_forall. intros d Hd. apply filter_In in Hd.
    rewrite Forall_forall in Hle. apply Hle. apply Hd.
Qed.

Lemma wf_inserted {A : Affinity} (now : datetime) (task : string) (period : Z)
    (duration : option Z) (date_ : option date) (t : Tables) :
  wf_tables t -> wf_tables (inserted now task period duration date_ t).
Proof.
  intros H. rewrite inserted_as_loop. apply wf_insert_deadlines. exact H.
Qed.

Lemma wf_insert_habit {A : Affinity} (now : datetime) (task : string)
    (period : Z) (duration : option Z) (date_ : option date) (c : Connection) :
  wf_tables (in_txn c) ->
  wf_tables (in_txn (snd (insert_habit now task period duration date_ c))).
Proof.
  intros H. rewrite insert_habit_effect.
  destruct (in_int64 period && in_int64 _); [|exact H].
  destruct (period =? 0); [exact H|].
  destruct (forallb _ _); cbn [snd in_txn]; apply wf_inserted, H.
Qed.

Lemma wf_check_off_habit {A : Affinity} (now : datetime) (task : string)
    (date_ : option datetime) (c : Connection) :
  wf_tables (in_txn c) ->
  wf_tables (in_txn (snd (check_off_habit now task date_ c))).
Proof.
  intros H. unfold check_off_habit, bind, search_deadlines.
  destruct (scan_for_id _ _); cbn.
  - apply wf_check_off. exact H.
  - exact H.
Qed.

Lemma wf_delete_habit {A : Affinity} (task : option string) (c : Connection) :
  wf_tables (in_txn c) ->
  wf_tables (in_txn (snd (delete_habit task c))).
Proof.
  intros H. destruct task as [t|]; cbn.
  - apply wf_delete_task. exact H.
  - split; constructor.
Qed.

Lemma wf_scenario : wf_tables (in_txn scenario).
Proof. apply wf_insert_habit, wf_fresh. Defined.

Lemma check_off_habit_effect {A : Affinity} (now : datetime) (task : string)
    (date_ : option datetime) (c : Connection) :
  let at_ := match date_ with Some d => d | None => now end in
  check_off_habit now task date_ c =
  match scan_for_id at_ (deadlines_of task (in_txn c)) with
  | Some id =>
      (Returned tt,
       mkConnection (sql_check_off at_ id (in_txn c))
                    (sql_check_off at_ id (in_txn c)))
  | None => (Raised UnboundLocalError, c)
  end.
Proof.
  intros at_. unfold check_off_habit. unfold bind at 1. unfold search_deadlines.
  fold at_. destruct (scan_for_id at_ (deadlines_of task (in_txn c)));
    reflexivity.
Qed.

Lemma delete_habit_effect {A : Affinity} (task : option string) (c : Connection) :
  delete_habit task c =
  match task with
  | Some t =>
      (Returned tt,
       mkConnection (sql_delete_task t (in_txn c)) (sql_delete_task t (in_txn c)))
  | None =>
      (Returned tt,
       mkConnection (sql_delete_all (in_txn c)) (sql_delete_all (in_txn c)))
  end.
Proof. destruct task; reflexivity. Qed.

Lemma strongly_sorted_after (R : DeadlineRow -> DeadlineRow -> Prop)
    (l1 l2 : list DeadlineRow) (r : DeadlineRow) :
  StronglySorted R (l1 ++ r :: l2) -> forall x, In x l2 -> R r x.
Proof.
  induction l1 as [|y l1 IH]; cbn [app]; intros H x Hx.
  - apply StronglySorted_inv in H. destruct H as [_ H].
    rewrite Forall_forall in H. apply H, Hx.
  - apply StronglySorted_inv in H. destruct H as [H _]. apply (IH H x Hx).
Qed.

Lemma chronological_sorted (l : list DeadlineRow) :
  StronglySorted (fun x y => from_date x < from_date y) l ->
  chronological l = l.
Proof.
  induction 1 as [|x l Hl IH Hx]; [reflexivity|].
  cbn [chronological fold_right]. fold (chronological l). rewrite IH.
  destruct l as [|y l]; [reflexivity|].
  cbn [insert_by_from].
  apply Forall_inv in Hx.
  destruct (Z.leb_spec (from_date x) (from_date y)); [reflexivity | lia].
Qed.

Lemma find_first (p : DeadlineRow -> bool) (l1 l2 : list DeadlineRow)
    (r : DeadlineRow) :
  Forall (fun x => p x = false) l1 -> p r = true ->
  find p (l1 ++ r :: l2) = Some r.
Proof.
  induction 1 as [|x l1 Hx _ IH]; intros Hr; cbn [app find].
  - rewrite Hr. reflexivity.
  - rewrite Hx. apply IH, Hr.
Qed.

(** C2, as stated, fails when the rows of a task are not stored in
    chronological order.  With one name created twice, the later week first,
    the timestamp 2024-01-08 00:00:00 lies in both intervals;
    [check_off_habit] marks the interval that was stored first, 01-08 to
    01-15, and not the chronologically first one, 01-01 to 01-08. *)
Lemma check_off_out_of_order_counterexample :
  let at_ := strptime_date 19730 in
  map (fun d => (from_date d / usec_per_day, to_date d / usec_per_day,
                 Z.leb (from_date d) at_ && Z.leb at_ (to_date d)))
      (deadlines_of "run" (in_txn out_of_order))
    = [ (19730, 19737, true); (19723, 19730, true) ] /\
  map (fun d => (from_date d / usec_per_day, checked_off d))
      (deadlines_of "run"
         (in_txn (snd (check_off_habit 0 "run" (Some at_) out_of_order))))
    = [ (19730, 1); (19723, 0) ].
Proof. split; vm_compute; reflexivity. Qed.

(** C2, amended.  While deadline ids are distinct: when the timestamp
    (given, or the current time by default) lies inside at least one
    interval of the task, [check_off_habit] succeeds and commits; the
    interval it picks is the first row of the task, in the order the rows
    are stored, with [from_date <= at <= to_date] (both bounds inclusive);
    exactly that row gets [checked_off = 1] and [completion_date = at], and
    every other row of the table is unchanged.  When the rows of the task
    are stored in chronological order, as the intervals of one habit are,
    the picked interval is the chronologically first one that contains the
    timestamp, so a timestamp on a boundary shared by two intervals
    resolves to the earlier one. *)
Theorem check_off_habit_first_match {A : Affinity} (now : datetime)
    (task : string) (date_ : option datetime) (c : Connection) :
  wf_tables (in_txn c) ->
  let at_ := match date_ with Some d => d | None => now end in
  let mine := fun d => String.eqb (deadline_task d) (affinity task) in
  (exists r, In r (deadlines (in_txn c)) /\ deadline_task r = affinity task /\
             from_date r <= at_ /\ at_ <= to_date r) ->
  exists (t1 t2 : list DeadlineRow) (r : DeadlineRow) (c' : Connection),
    deadlines (in_txn c) = t1 ++ r :: t2 /\
    deadline_task r = affinity task /\
    from_date r <= at_ /\ at_ <= to_date r /\
    (forall x, In x t1 -> deadline_task x = affinity task ->
               ~ (from_date x <= at_ /\ at_ <= to_date x)) /\
    check_off_habit now task date_ c = (Returned tt, c') /\
    committed c' = in_txn c' /\
    habits (in_txn c') = habits (in_txn c) /\
    deadlines (in_txn c') =
      t1 ++ mkDeadline (deadline_id r) (deadline_task r) (from_date r)
                       (to_date r) 1 (Some at_) :: t2 /\
    (StronglySorted (fun x y => from_date x < from_date y)
                    (filter mine (deadlines (in_txn c))) ->
     (forall x, In x (deadlines (in_txn c)) -> deadline_task x = affinity task ->
                from_date x <= at_ -> at_ <= to_date x ->
                from_date r <= from_date x) /\
     (forall ra rb, In ra (deadlines (in_txn c)) -> In rb (deadlines (in_txn c)) ->
                    deadline_task ra = affinity task ->
                    deadline_task rb = affinity task ->
                    from_date ra <= at_ -> to_date ra = at_ ->
                    from_date rb = at_ -> from_date ra < from_date rb ->
                    r <> rb) /\
     find (fun d => (from_date d <=? at_) && (at_ <=? to_date d))
          (chronological (filter mine (deadlines (in_txn c)))) = Some r).
Proof.
  intros [Hnd _] at_ mine (r0 & Hin0 & Ht0 & Hlo & Hhi).
  assert (forall x, contains at_ x = true <->
                    from_date x <= at_ /\ at_ <= to_date x) as Hc.
  { intros x. unfold contains, between.
    rewrite andb_true_iff, !Z.leb_le. reflexivity. }
  assert (forall x, In x (deadlines_of task (in_txn c)) <->
                    In x (deadlines (in_txn c)) /\
                    deadline_task x = affinity task) as Hmine.
  { intros x. unfold deadlines_of. rewrite filter_In, String.eqb_eq.
    reflexivity. }
  destruct (scan_for_id_first at_ (deadlines_of task (in_txn c)))
    as (l1 & r & l2 & Hl & Hl1 & Hr & Hscan).
  { exists r0. split; [apply Hmine; split; assumption|].
    apply Hc. split; assumption. }
  destruct (filter_split _ _ _ _ _ Hl) as (t1 & t2 & Ht & Hf1 & Hf2).
  assert (In r (deadlines_of task (in_txn c))) as Hrin
    by (rewrite Hl; apply in_elt).
  apply Hmine in Hrin. destruct Hrin as [_ Hrt].
  exists t1, t2, r. eexists.
  split; [exact Ht|]. split; [exact Hrt|].
  apply Hc in Hr. destruct Hr as [Hr1 Hr2].
  split; [exact Hr1|]. split; [exact Hr2|].
  rewrite Forall_forall in Hl1.
  split.
  { intros x Hx Hxt Hcx. apply Hc in Hcx.
    assert (In x l1) as Hxl.
    { rewrite <- Hf1. apply filter_In. split; [exact Hx|].
      apply String.eqb_eq, Hxt. }
    rewrite (Hl1 x Hxl) in Hcx. discriminate. }
  rewrite check_off_habit_effect. cbv zeta. fold at_. rewrite Hscan.
  split; [reflexivity|]. cbn [committed in_txn sql_check_off habits deadlines].
  split; [reflexivity|]. split; [reflexivity|].
  split.
  { rewrite Ht. apply set_checked_unique. rewrite <- Ht. exact Hnd. }
  intros Hsorted. change (filter mine (deadlines (in_txn c)))
    with (deadlines_of task (in_txn c)) in *.
  assert (forall x, In x (deadlines (in_txn c)) -> deadline_task x = affinity task ->
                    from_date x <= at_ -> at_ <= to_date x ->
                    from_date r <= from_date x) as Hmin.
  { intros x Hx Hxt Hx1 Hx2.
    assert (In x (l1 ++ r :: l2)) as Hxl
      by (rewrite <- Hl; apply Hmine; split; assumption).
    apply in_app_or in Hxl. destruct Hxl as [Hxl|[<-|Hxl]].
    - specialize (Hl1 x Hxl).
      assert (contains at_ x = true) as E by (apply Hc; split; assumption).
      congruence.
    - apply Z.le_refl.
    - rewrite Hl in Hsorted.
      pose proof (strongly_sorted_after _ _ _ _ Hsorted x Hxl) as Hlt.
      cbn in Hlt. lia. }
  split; [exact Hmin|]. split.
  - intros ra rb Hra Hrb Hrat Hrbt Hra1 Hra2 Hrb1 Hlt ->.
    specialize (Hmin ra Hra Hrat Hra1 ltac:(lia)). lia.
  - rewrite (chronological_sorted _ Hsorted), Hl.
    apply find_first.
    + apply Forall_forall. intros x Hx. apply (Hl1 x Hx).
    + unfold contains, between in Hc.
      apply andb_true_iff. split; apply Z.leb_le; assumption.
Qed.

(** The premises of C2 hold in the scenario for a check-off at
    2024-01-10 12:00:00, which lies in the second interval; the intervals of
    the scenario are stored in chronological order. *)
Lemma check_off_habit_first_match_witness :
  let at_ := strptime_date 19732 + 43200000000 in
  let mine := fun d => String.eqb (deadline_task d) "run" in
  exists (t1 t2 : list DeadlineRow) (r : DeadlineRow) (c' : Connection),
    deadlines (in_txn scenario) = t1 ++ r :: t2 /\
    deadline_task r = "run"%string /\
    from_date r <= at_ /\ at_ <= to_date r /\
    (forall x, In x t1 -> deadline_task x = "run"%string ->
               ~ (from_date x <= at_ /\ at_ <= to_date x)) /\
    check_off_habit 0 "run" (Some at_) scenario = (Returned tt, c') /\
    committed c' = in_txn c' /\
    habits (in_txn c') = habits (in_txn scenario) /\
    deadlines (in_txn c') =
      t1 ++ mkDeadline (deadline_id r) (deadline_task r) (from_date r)
                       (to_date r) 1 (Some at_) :: t2 /\
    (StronglySorted (fun x y => from_date x < from_date y)
                    (filter mine (deadlines (in_txn scenario))) ->
     (forall x, In x (deadlines (in_txn scenario)) ->
                deadline_task x = "run"%string ->
                from_date x <= at_ -> at_ <= to_date x ->
                from_date r <= from_date x) /\
     (forall ra rb, In ra (deadlines (in_txn scenario)) ->
                    In rb (deadlines (in_txn scenario)) ->
                    deadline_task ra = "run"%string ->
                    deadline_task rb = "run"%string ->
                    from_date ra <= at_ -> to_date ra = at_ ->
                    from_date rb = at_ -> from_date ra < from_date rb ->
                    r <> rb) /\
     find (fun d => (from_date d <=? at_) && (at_ <=? to_date d))
          (chronological (filter mine (deadlines (in_txn scenario)))) = Some r).
Proof.
  refine (check_off_habit_first_match 0 "run"
            (Some (strptime_date 19732 + 43200000000)) scenario _ _).
  - exact wf_scenario.
  - exists (scheduled_row "run" day_2024_01_01 7 0 1).
    split; [vm_compute; right; left; reflexivity|].
    split; [reflexivity|].
    split; by_computation.
Defined.

(** The intervals of the scenario are stored in chronological order. *)
Example scenario_chronological :
  StronglySorted (fun x y => from_date x < from_date y)
                 (deadlines_of "run" (in_txn scenario)).
Proof.
  vm_compute.
  repeat (constructor; [|repeat (constructor; [reflexivity|]); constructor]).
  constructor.
Qed.

(** The check-off scenarios of the specification.  A timestamp inside the
    second interval marks the second interval; a timestamp on the boundary
    shared by the first and second intervals (2024-01-08 00:00:00) marks
    the first one. *)
Example check_off_scenario :
  map (fun d => (checked_off d, completion_date d))
      (deadlines_of "run"
         (in_txn (snd (check_off_habit 0 "run"
                         (Some (strptime_date 19732 + 43200000000)) scenario)))) =
  [ (0, None); (1, Some (strptime_date 19732 + 43200000000));
    (0, None); (0, None); (0, None) ].
Proof. vm_compute. reflexivity. Qed.

Example check_off_boundary :
  map checked_off
      (deadlines_of "run"
         (in_txn (snd (check_off_habit 0 "run"
                         (Some (strptime_date 19730)) scenario)))) =
  [1; 0; 0; 0; 0].
Proof. vm_compute. reflexivity. Qed.

(** C3.  When no interval of the task contains the timestamp (before the
    first, after the last, or no interval at all), the local [id] is never
    bound and [check_off_habit] raises [UnboundLocalError], the
    undefined-reference error the claim rules out; the connection is left
    as it was. *)
Theorem check_off_habit_no_match {A : Affinity} (now : datetime) (task : string)
    (date_ : option datetime) (c : Connection) :
  let at_ := match date_ with Some d => d | None => now end in
  (forall r, In r (deadlines_of task (in_txn c)) ->
             ~ (from_date r <= at_ /\ at_ <= to_date r)) ->
  check_off_habit now task date_ c = (Raised UnboundLocalError, c).
Proof.
  intros at_ H.
  unfold check_off_habit. unfold bind at 1. unfold search_deadlines.
  fold at_.
  assert (scan_for_id at_ (deadlines_of task (in_txn c)) = None) as ->.
  { apply scan_for_id_none. apply Forall_forall. intros r Hr.
    specialize (H r Hr). unfold contains, between.
    destruct (from_date r <=? at_) eqn:E1; [|reflexivity].
    destruct (at_ <=? to_date r) eqn:E2; [|reflexivity].
    exfalso. apply H. split; [apply Z.leb_le, E1 | apply Z.leb_le, E2]. }
  reflexivity.
Qed.

(** The scenario of the specification: a check-off on 2024-03-01 (day
    19783), after the last interval, raises [UnboundLocalError]; so does a
    check-off for a task without any interval. *)
Lemma check_off_habit_no_match_witness :
  check_off_habit 0 "run" (Some (strptime_date 19783)) scenario =
    (Raised UnboundLocalError, scenario) /\
  check_off_habit 0 "swim" (Some (strptime_date 19730)) scenario =
    (Raised UnboundLocalError, scenario).
Proof.
  split.
  - apply (check_off_habit_no_match 0 "run" (Some (strptime_date 19783)) scenario).
    intros r Hin [_ Hhi].
    vm_compute in Hin.
    repeat (destruct Hin as [<-|Hin]; [vm_compute in Hhi; apply Hhi; reflexivity|]).
    exact Hin.
  - apply (check_off_habit_no_match 0 "swim" (Some (strptime_date 19730)) scenario).
    intros r Hin. vm_compute in Hin. destruct Hin.
Defined.

(** ** Streak *)

Lemma spec_streak_loop_eq (rows : list DeadlineRow) :
  forall max running : Z,
    streak_loop rows max running =
    spec_streak_loop (map completed rows) max running.
Proof.
  induction rows as [|d rows IH]; intros m r; [reflexivity|].
  cbn [streak_loop map spec_streak_loop]. fold (completed d).
  destruct (completed d).
  - rewrite <- IH. f_equal.
    destruct (Z.ltb_spec m (r + 1)); lia.
  - apply IH.
Qed.

Lemma leading_le_longest (rows : list DeadlineRow) :
  (leading_run rows <= longest_run rows)%nat.
Proof.
  destruct rows as [|d rows]; [apply Nat.le_refl|].
  cbn [longest_run]. apply Nat.le_max_l.
Qed.

Lemma streak_loop_runs (rows : list DeadlineRow) :
  forall max running : Z,
    0 <= running <= max ->
    streak_loop rows max running =
    Z.max max (Z.max (running + Z.of_nat (leading_run rows))
                     (Z.of_nat (longest_run rows))).
Proof.
  induction rows as [|d rows IH]; intros m r Hr.
  - cbn. lia.
  - pose proof (leading_le_longest rows) as Hle.
    cbn [streak_loop longest_run]. cbn [leading_run]. fold (completed d).
    destruct (completed d).
    + rewrite IH by (destruct (Z.ltb_spec m (r + 1)); lia).
      destruct (Z.ltb_spec m (r + 1)); lia.
    + rewrite IH by lia. lia.
Qed.

Lemma get_streak_run {A : Affinity} (task : string) (c : Connection) :
  get_streak task c =
  (Returned (Z.of_nat (longest_run (deadlines_of task (in_txn c)))), c).
Proof.
  unfold get_streak, bind, search_deadlines, ret.
  rewrite streak_loop_runs by lia.
  pose proof (leading_le_longest (deadlines_of task (in_txn c))).
  do 2 f_equal. lia.
Qed.

Lemma leading_run_prefix (rows : list DeadlineRow) :
  exists seg rest,
    rows = seg ++ rest /\
    Forall (fun d => completed d = true) seg /\
    List.length seg = leading_run rows.
Proof.
  induction rows as [|d rows (seg & rest & Hrows & Hall & Hlen)].
  - exists [], []. repeat split. constructor.
  - cbn [leading_run]. destruct (completed d) eqn:E.
    + exists (d :: seg), rest. cbn [app List.length].
      repeat split; [congruence | constructor; assumption | congruence].
    + exists [], (d :: rows). repeat split. constructor.
Qed.

Lemma longest_run_attained (rows : list DeadlineRow) :
  exists seg, is_run rows seg /\ List.length seg = longest_run rows.
Proof.
  induction rows as [|d rows (seg & [(l1 & l2 & Hrows) Hall] & Hlen)].
  - exists []. split; [split; [exists [], []; reflexivity | constructor] | reflexivity].
  - cbn [longest_run].
    destruct (Nat.max_spec (leading_run (d :: rows)) (longest_run rows))
      as [[_ ->]|[_ ->]].
    + exists seg. split; [|exact Hlen].
      split; [|exact Hall]. exists (d :: l1), l2. cbn [app]. congruence.
    + destruct (leading_run_prefix (d :: rows)) as (pre & rest & Hp & Hq & Hl).
      exists pre. split; [|exact Hl].
      split; [|exact Hq]. exists [], rest. exact Hp.
Qed.

Lemma leading_run_ge (seg rest : list DeadlineRow) :
  Forall (fun d => completed d = true) seg ->
  (List.length seg <= leading_run (seg ++ rest))%nat.
Proof.
  induction 1 as [|d seg Hd _ IH]; cbn [app List.length leading_run].
  - apply Nat.le_0_l.
  - rewrite Hd. apply le_n_S, IH.
Qed.

Lemma longest_run_bound (rows seg : list DeadlineRow) :
  is_run rows seg -> (List.length seg <= longest_run rows)%nat.
Proof.
  intros [(l1 & l2 & ->) Hall].
  induction l1 as [|x l1 IH]; cbn [app].
  - eapply Nat.le_trans; [apply leading_run_ge, Hall | apply leading_le_longest].
  - cbn [longest_run]. eapply Nat.le_trans; [exact IH | apply Nat.le_max_r].
Qed.

Lemma leading_run_all (rows : list DeadlineRow) :
  (forall d, In d rows -> completed d = true) ->
  leading_run rows = List.length rows.
Proof.
  induction rows as [|d rows IH]; intros H; [reflexivity|].
  cbn [leading_run List.length].
  rewrite (H d (or_introl eq_refl)). f_equal. apply IH.
  intros x Hx. apply H. right. exact Hx.
Qed.

Lemma longest_run_all (rows : list DeadlineRow) :
  (forall d, In d rows -> completed d = true) ->
  longest_run rows = List.length rows.
Proof.
  intros H. apply Nat.le_antisymm.
  - destruct (longest_run_attained rows) as (seg & [(l1 & l2 & Hrows) _] & <-).
    rewrite Hrows, !length_app. lia.
  - rewrite <- (leading_run_all rows H). apply leading_le_longest.
Qed.

Lemma longest_run_none (rows : list DeadlineRow) :
  (forall d, In d rows -> completed d = false) ->
  longest_run rows = O.
Proof.
  induction rows as [|d rows IH]; intros H; [reflexivity|].
  cbn [longest_run leading_run].
  rewrite (H d (or_introl eq_refl)).
  rewrite IH; [reflexivity|].
  intros x Hx. apply H. right. exact Hx.
Qed.

Lemma completed_iff (d : DeadlineRow) :
  completed d = true <-> checked_off d <> 0.
Proof.
  unfold completed, truthy.
  destruct (Z.eqb_spec (checked_off d) 0) as [E|E]; cbn [negb].
  - split; [discriminate | intros H; contradiction].
  - split; [intros _; exact E | reflexivity].
Qed.

Lemma is_run_iff (rows seg : list DeadlineRow) :
  is_run rows seg <->
  (exists l1 l2, rows = l1 ++ seg ++ l2) /\
  Forall (fun d => checked_off d <> 0) seg.
Proof.
  unfold is_run. split; intros [H1 H2]; (split; [exact H1|]);
    eapply Forall_impl; try exact H2; intros d; apply completed_iff.
Qed.

(** C5, as stated, fails when the rows of a task are not stored in
    chronological order.  With the week of 01-15 stored first and checked
    off, then the weeks of 01-01 (checked off) and 01-08 (not checked off),
    [get_streak] returns 2, while in chronological order the flags are
    1, 0, 1 and the longest run is 1. *)
Lemma get_streak_out_of_order_counterexample :
  map (fun d => (from_date d / usec_per_day, checked_off d))
      (deadlines_of "run" (in_txn streak_out_of_order))
    = [ (19737, 1); (19723, 1); (19730, 0) ] /\
  map (fun d => (from_date d / usec_per_day, checked_off d))
      (chronological (deadlines_of "run" (in_txn streak_out_of_order)))
    = [ (19723, 1); (19730, 0); (19737, 1) ] /\
  fst (get_streak "run" streak_out_of_order) = Returned 2 /\
  spec_max_streak [true; false; true] = 1.
Proof. repeat split; vm_compute; reflexivity. Qed.

(** C5, amended.  [get_streak] succeeds on every store and returns the
    length of the longest run of consecutive intervals of the task with a
    non-zero [checked_off] flag, the intervals taken in the order they are
    stored: some run has that length and no run is longer.  The value is
    the one the specification's loop computes ([running = 0], [max = 0],
    [max = max(max, running)] on completed intervals, [running = 0]
    otherwise).  It is 0 when every flag is 0, the number of intervals when
    no flag is 0, and 2 for the flags 1, 1, 0, 1, 1.  When the rows are
    stored in chronological order, as the intervals of one habit are, it is
    the value of that loop on the chronological sequence. *)
Theorem get_streak_longest_run {A : Affinity} (task : string)
    (c : Connection) :
  let rows :=
    filter (fun d => String.eqb (deadline_task d) (affinity task))
           (deadlines (in_txn c)) in
  let flag := fun d : DeadlineRow => negb (checked_off d =? 0) in
  exists s : Z,
    get_streak task c = (Returned s, c) /\
    s = spec_max_streak (map flag rows) /\
    (exists l1 seg l2,
        rows = l1 ++ seg ++ l2 /\
        Forall (fun d => checked_off d <> 0) seg /\
        Z.of_nat (List.length seg) = s) /\
    (forall l1 seg l2,
        rows = l1 ++ seg ++ l2 ->
        Forall (fun d => checked_off d <> 0) seg ->
        Z.of_nat (List.length seg) <= s) /\
    ((forall d, In d rows -> checked_off d = 0) -> s = 0) /\
    ((forall d, In d rows -> checked_off d <> 0) ->
     s = Z.of_nat (List.length rows)) /\
    (map checked_off rows = [1; 1; 0; 1; 1] -> s = 2) /\
    (StronglySorted (fun x y => from_date x < from_date y) rows ->
     s = spec_max_streak (map flag (chronological rows))).
Proof.
  intros rows flag.
  change rows with (deadlines_of task (in_txn c)) in *.
  set (rows' := deadlines_of task (in_txn c)) in *.
  exists (Z.of_nat (longest_run rows')).
  split; [apply get_streak_run|].
  assert (Z.of_nat (longest_run rows') = spec_max_streak (map flag rows'))
    as Hspec.
  { unfold spec_max_streak.
    change (map flag rows') with (map completed rows').
    rewrite <- spec_streak_loop_eq.
    rewrite streak_loop_runs by lia.
    pose proof (leading_le_longest rows'). lia. }
  split; [exact Hspec|].
  split.
  { destruct (longest_run_attained rows') as (seg & Hrun & Hlen).
    apply is_run_iff in Hrun. destruct Hrun as [(l1 & l2 & Hrows) Hall].
    exists l1, seg, l2. repeat split; [exact Hrows | exact Hall | congruence]. }
  split.
  { intros l1 seg l2 Hrows Hall.
    apply Nat2Z.inj_le, longest_run_bound, is_run_iff.
    split; [exists l1, l2; exact Hrows | exact Hall]. }
  split.
  { intros H. rewrite longest_run_none; [reflexivity|].
    intros d Hd. unfold completed, truthy. rewrite (H d Hd). reflexivity. }
  split.
  { intros H. rewrite longest_run_all; [reflexivity|].
    intros d Hd. apply completed_iff, H, Hd. }
  split.
  { intros H. rewrite Hspec.
    change (map flag rows')
      with (map (fun d => negb (checked_off d =? 0)) rows').
    rewrite <- (map_map checked_off (fun z => negb (z =? 0))), H.
    reflexivity. }
  intros Hsorted. rewrite (chronological_sorted _ Hsorted). exact Hspec.
Qed.

(** The scenario with the pattern [T,T,F,T,T]. *)
Example get_streak_TTFTT :
  map completed (deadlines_of "run" (in_txn scenario_TTFTT)) =
    [true; true; false; true; true] /\
  fst (get_streak "run" scenario_TTFTT) = Returned 2.
Proof. split; vm_compute; reflexivity. Qed.

Lemma is_run_app (rows extra seg : list DeadlineRow) :
  is_run rows seg -> is_run (rows ++ extra) seg.
Proof.
  intros [(l1 & l2 & ->) Hall]. split; [|exact Hall].
  exists l1, (l2 ++ extra). rewrite <- !app_assoc. reflexivity.
Qed.

Lemma longest_run_app (rows extra : list DeadlineRow) :
  (longest_run rows <= longest_run (rows ++ extra))%nat.
Proof.
  destruct (longest_run_attained rows) as (seg & Hrun & <-).
  apply longest_run_bound, is_run_app, Hrun.
Qed.

(** C6.  When the task's intervals are all completed, one more completed
    interval at the end raises the value of [get_streak] by exactly 1; on
    any sequence, one more interval that is not completed does not lower
    it. *)
Theorem get_streak_append {A : Affinity} (task : string) (c1 c2 : Connection)
    (r : DeadlineRow) :
  deadlines_of task (in_txn c2) = deadlines_of task (in_txn c1) ++ [r] ->
  exists s1 s2 : Z,
    get_streak task c1 = (Returned s1, c1) /\
    get_streak task c2 = (Returned s2, c2) /\
    ((forall d, In d (deadlines_of task (in_txn c1)) -> checked_off d <> 0) ->
     checked_off r <> 0 -> s2 = s1 + 1) /\
    (checked_off r = 0 -> s1 <= s2).
Proof.
  intros H.
  assert (forall d, checked_off d <> 0 -> completed d = true) as Hc.
  { intros d Hd. unfold completed, truthy.
    destruct (Z.eqb_spec (checked_off d) 0); [contradiction | reflexivity]. }
  exists (Z.of_nat (longest_run (deadlines_of task (in_txn c1)))),
         (Z.of_nat (longest_run (deadlines_of task (in_txn c2)))).
  split; [apply get_streak_run|].
  split; [apply get_streak_run|].
  rewrite H. split.
  - intros Hall Hr.
    rewrite !longest_run_all.
    + rewrite length_app. cbn [List.length]. lia.
    + intros d Hd. apply Hc, Hall, Hd.
    + intros d Hd. apply in_app_or in Hd.
      destruct Hd as [Hd|[<-|[]]]; [apply Hc, Hall, Hd | apply Hc, Hr].
  - intros _. apply Nat2Z.inj_le, longest_run_app.
Qed.

(** The premise of C6 holds for a store with one completed week to which a
    second completed week is appended: the streak goes from 1 to 2. *)
Lemma get_streak_append_witness :
  exists s1 s2 : Z,
    get_streak "run" week_one_done = (Returned s1, week_one_done) /\
    get_streak "run" week_two_done = (Returned s2, week_two_done) /\
    ((forall d, In d (deadlines_of "run" (in_txn week_one_done)) ->
                checked_off d <> 0) ->
     checked_off (mark (strptime_date 19732) (scheduled_row "run" 19730 7 1 0))
       <> 0 ->
     s2 = s1 + 1) /\
    (checked_off (mark (strptime_date 19732) (scheduled_row "run" 19730 7 1 0))
       = 0 -> s1 <= s2).
Proof.
  apply (get_streak_append "run" week_one_done week_two_done
           (mark (strptime_date 19732) (scheduled_row "run" 19730 7 1 0))).
  vm_compute. reflexivity.
Defined.

Example get_streak_weeks :
  fst (get_streak "run" week_one_done) = Returned 1 /\
  fst (get_streak "run" week_two_done) = Returned 2.
Proof. split; vm_compute; reflexivity. Qed.

(** ** Success rate *)

Lemma in_window_iff (from_ current_time : datetime) (r : DeadlineRow) :
  in_window from_ current_time r = true <->
  (from_ <= to_date r /\ to_date r <= current_time) \/
  (from_ <= from_date r /\ from_date r <= current_time).
Proof.
  unfold in_window, between.
  rewrite orb_true_iff, !andb_true_iff, !Z.leb_le. reflexivity.
Qed.

Lemma sum_checked_map (l : list DeadlineRow) :
  sum_checked l = fold_right Z.add 0 (map checked_off l).
Proof.
  induction l as [|d l IH]; [reflexivity|].
  cbn [sum_checked fold_right map] in *. rewrite <- IH. reflexivity.
Qed.

(** What [get_success_rate] does: it raises when the window cannot be
    built, before it looks at any row. *)
Lemma get_success_rate_effect {A : Affinity} (now : datetime) (task : string)
    (duration : option Z) (c : Connection) :
  let filtered := filtered_data now duration (deadlines_of task (in_txn c)) in
  get_success_rate now task duration c =
  if window_in_range now duration
  then (Returned (rate (sum_checked filtered) (List.length filtered)), c)
  else (Raised OverflowError, c).
Proof.
  intros filtered. unfold get_success_rate, window_in_range.
  unfold bind at 1. unfold search_deadlines. unfold bind at 1.
  rewrite timedelta_of_run.
  destruct (Z.abs (window_days duration) <=? timedelta_max_days);
    cbn [andb]; [|reflexivity].
  unfold bind. rewrite datetime_of_run.
  destruct (between datetime_min _ datetime_max); reflexivity.
Qed.

Lemma window_in_range_iff (now : datetime) (duration : option Z) :
  window_in_range now duration = true <->
  Z.abs (window_days duration) <= timedelta_max_days /\
  datetime_min <= now - timedelta (window_days duration) <= datetime_max.
Proof.
  unfold window_in_range, between.
  rewrite !andb_true_iff, !Z.leb_le. reflexivity.
Qed.

Lemma get_success_rate_run {A : Affinity} (now : datetime) (task : string)
    (duration : option Z) (c : Connection) :
  window_in_range now duration = true ->
  let filtered := filtered_data now duration (deadlines_of task (in_txn c)) in
  get_success_rate now task duration c =
  (Returned (rate (sum_checked filtered) (List.length filtered)), c).
Proof. intros H filtered. rewrite get_success_rate_effect, H. reflexivity. Qed.

Lemma window_days_effective (duration : option Z) :
  window_days duration =
  match duration with
  | Some d => if d =? 0 then 30 else d
  | None => 30
  end.
Proof.
  destruct duration as [d|]; [|reflexivity].
  unfold window_days, truthy. destruct (d =? 0); reflexivity.
Qed.

Lemma rate_zero (n : nat) : rate 0 n = 0%Q.
Proof. destruct n; reflexivity. Qed.

Lemma rate_quotient (s : Z) (n : nat) :
  n <> O -> (rate s n == Qmake s (Pos.of_nat n))%Q.
Proof.
  destruct n as [|n]; [contradiction|].
  intros _. unfold rate. apply Qred_correct.
Qed.

Lemma rate_bounds (s : Z) (n : nat) :
  0 <= s <= Z.of_nat n -> (0 <= rate s n)%Q /\ (rate s n <= 1)%Q.
Proof.
  intros Hs. destruct n as [|n].
  - cbn. split; [apply Qle_refl | discriminate].
  - rewrite (rate_quotient s (S n)) by discriminate.
    unfold Qle. cbn [Qnum Qden].
    assert (Z.pos (Pos.of_nat (S n)) = Z.of_nat (S n)) as E.
    { rewrite <- positive_nat_Z, Nat2Pos.id by discriminate. reflexivity. }
    rewrite E. split; lia.
Qed.

Lemma sum_checked_bounds (l : list DeadlineRow) :
  (forall d, In d l -> checked_off d = 0 \/ checked_off d = 1) ->
  0 <= sum_checked l <= Z.of_nat (List.length l).
Proof.
  induction l as [|d l IH]; intros H.
  - cbn. lia.
  - cbn [sum_checked fold_right List.length]. fold (sum_checked l).
    assert (0 <= sum_checked l <= Z.of_nat (List.length l)) as Hl
      by (apply IH; intros x Hx; apply H; right; exact Hx).
    destruct (H d (or_introl eq_refl)) as [-> | ->]; lia.
Qed.

Lemma sum_checked_none (l : list DeadlineRow) :
  (forall d, In d l -> checked_off d = 0) -> sum_checked l = 0.
Proof.
  induction l as [|d l IH]; intros H; [reflexivity|].
  cbn [sum_checked fold_right]. fold (sum_checked l).
  rewrite (H d (or_introl eq_refl)), IH; [reflexivity|].
  intros x Hx. apply H. right. exact Hx.
Qed.

Lemma filter_none {X : Type} (p : X -> bool) (l : list X) :
  (forall x, In x l -> p x = false) -> filter p l = [].
Proof.
  induction l as [|x l IH]; intros H; [reflexivity|].
  cbn [filter]. rewrite (H x (or_introl eq_refl)).
  apply IH. intros y Hy. apply H. right. exact Hy.
Qed.

(** C4, as stated, fails for large windows: the window start
    [now - timedelta(days=window_days)] is built before any row is read,
    and for a window of 1000000 days before 2024-01-18 it lies before
    0001-01-01, so [get_success_rate] raises [OverflowError]. *)
Lemma success_rate_window_overflow_counterexample :
  fst (get_success_rate (strptime_date 19740) "run" (Some 1000000) scenario)
  = Raised OverflowError.
Proof. vm_compute. reflexivity. Qed.

(** C4, amended.  Let the window length be the one given, and 30 days
    when it is 0 or absent.  When that length is within the range of
    [timedelta] and the window start [now - window] within the range of
    [datetime], [get_success_rate] keeps, in the store's order, exactly the
    intervals of the task whose [to_date] lies in [[now - window, now]] or
    whose [from_date] lies in [[now - window, now]], and returns the sum of
    their [checked_off] flags divided by their number, or 0.0 when none is
    kept. *)
Theorem get_success_rate_window {A : Affinity} (now : datetime)
    (task : string) (duration : option Z) (c : Connection) :
  let rows :=
    filter (fun d => String.eqb (deadline_task d) (affinity task))
           (deadlines (in_txn c)) in
  let window :=
    match duration with
    | Some d => if d =? 0 then 30 else d
    | None => 30
    end in
  let included (r : DeadlineRow) : Prop :=
    (now - timedelta window <= to_date r /\ to_date r <= now) \/
    (now - timedelta window <= from_date r /\ from_date r <= now) in
  Z.abs window <= timedelta_max_days ->
  datetime_min <= now - timedelta window <= datetime_max ->
  exists (keep : DeadlineRow -> bool) (q : Q),
    (forall r, keep r = true <-> included r) /\
    get_success_rate now task duration c = (Returned q, c) /\
    (filter keep rows = [] -> q = 0%Q) /\
    (filter keep rows <> [] ->
     (q == Qmake (fold_right Z.add 0%Z (map checked_off (filter keep rows)))
                 (Pos.of_nat (List.length (filter keep rows))))%Q).
Proof.
  intros rows window included Hlen Hstart.
  pose proof (window_days_effective duration) as Hw. fold window in Hw.
  assert (window_in_range now duration = true) as Hin
    by (apply window_in_range_iff; rewrite Hw; split; assumption).
  exists (in_window (now - timedelta window) now).
  eexists.
  split; [intros r; apply in_window_iff|].
  split; [apply (get_success_rate_run now task duration c Hin)|].
  cbv zeta. unfold filtered_data. rewrite Hw.
  change (deadlines_of task (in_txn c)) with rows.
  split.
  - intros ->. reflexivity.
  - intros Hne. rewrite <- sum_checked_map. apply rate_quotient.
    intros E. apply Hne. apply length_zero_iff_nil. exact E.
Qed.

Lemma get_success_rate_window_witness :
  let now := strptime_date 19740 in
  let rows :=
    filter (fun d => String.eqb (deadline_task d) "run")
           (deadlines (in_txn scenario_TTFTT)) in
  let included (r : DeadlineRow) : Prop :=
    (now - timedelta 30 <= to_date r /\ to_date r <= now) \/
    (now - timedelta 30 <= from_date r /\ from_date r <= now) in
  exists (keep : DeadlineRow -> bool) (q : Q),
    (forall r, keep r = true <-> included r) /\
    get_success_rate now "run" (Some 0) scenario_TTFTT
      = (Returned q, scenario_TTFTT) /\
    (filter keep rows = [] -> q = 0%Q) /\
    (filter keep rows <> [] ->
     (q == Qmake (fold_right Z.add 0%Z (map checked_off (filter keep rows)))
                 (Pos.of_nat (List.length (filter keep rows))))%Q).
Proof.
  refine (get_success_rate_window (strptime_date 19740) "run" (Some 0)
            scenario_TTFTT _ _).
  - by_computation.
  - split; by_computation.
Defined.

Example get_success_rate_weeks :
  fst (get_success_rate (strptime_date 19740) "run" (Some 30) week_two_done)
    = Returned 1%Q /\
  fst (get_success_rate (strptime_date 19740) "run" (Some 30) scenario_TTFTT)
    = Returned (Qmake 2 3) /\
  fst (get_success_rate (strptime_date 19740) "run" (Some 0) scenario_TTFTT)
    = Returned (Qmake 2 3) /\
  fst (get_success_rate (strptime_date 19740) "run" (Some 3) scenario_TTFTT)
    = Returned (Qmake 1 2) /\
  fst (get_success_rate (strptime_date 19740) "run" (Some 2) scenario_TTFTT)
    = Returned 0%Q /\
  fst (get_success_rate (strptime_date 19740) "run" (Some (-3)) scenario_TTFTT)
    = Returned 0%Q.
Proof. repeat split; vm_compute; reflexivity. Qed.

(** C7, as stated, fails for large windows: a window of 10000000000 days
    is no [timedelta], and [get_success_rate] raises [OverflowError]
    instead of returning a value. *)
Lemma success_rate_bounds_overflow_counterexample :
  fst (get_success_rate (strptime_date 19740) "run" (Some 10000000000)
         week_two_done)
  = Raised OverflowError.
Proof. vm_compute. reflexivity. Qed.

(** C7, amended.  Let the window length be the one given, and 30 days
    when it is 0 or absent.  When every [checked_off] flag of the task is 0
    or 1, the window length is within the range of [timedelta] and the
    window start [now - window] within the range of [datetime], the value
    returned by [get_success_rate] lies between 0 and 1, and it is exactly 0
    when no interval of the task has its [to_date] or its [from_date] in
    [[now - window, now]]. *)
Theorem get_success_rate_bounds {A : Affinity} (now : datetime)
    (task : string) (duration : option Z) (c : Connection) :
  let rows :=
    filter (fun d => String.eqb (deadline_task d) (affinity task))
           (deadlines (in_txn c)) in
  let window :=
    match duration with
    | Some d => if d =? 0 then 30 else d
    | None => 30
    end in
  let overlaps (r : DeadlineRow) : Prop :=
    (now - timedelta window <= to_date r /\ to_date r <= now) \/
    (now - timedelta window <= from_date r /\ from_date r <= now) in
  (forall d, In d rows -> checked_off d = 0 \/ checked_off d = 1) ->
  Z.abs window <= timedelta_max_days ->
  datetime_min <= now - timedelta window <= datetime_max ->
  exists q : Q,
    get_success_rate now task duration c = (Returned q, c) /\
    (0 <= q)%Q /\ (q <= 1)%Q /\
    ((forall r, In r rows -> ~ overlaps r) -> q = 0%Q).
Proof.
  intros rows window overlaps H Hlen Hstart.
  pose proof (window_days_effective duration) as Hw. fold window in Hw.
  assert (window_in_range now duration = true) as Hin
    by (apply window_in_range_iff; rewrite Hw; split; assumption).
  eexists.
  split; [apply (get_success_rate_run now task duration c Hin)|].
  cbv zeta. change (deadlines_of task (in_txn c)) with rows.
  set (filtered := filtered_data now duration rows).
  assert (0 <= sum_checked filtered <= Z.of_nat (List.length filtered)) as Hs.
  { apply sum_checked_bounds. intros d Hd. apply H.
    unfold filtered, filtered_data in Hd. apply filter_In in Hd. apply Hd. }
  destruct (rate_bounds _ _ Hs) as [H0 H1].
  split; [exact H0|]. split; [exact H1|].
  intros Hnone.
  assert (filtered = []) as ->; [|reflexivity].
  unfold filtered, filtered_data. rewrite Hw. apply filter_none.
  intros r Hr. destruct (in_window (now - timedelta window) now r) eqn:E;
    [|reflexivity].
  exfalso. apply (Hnone r Hr). apply in_window_iff. exact E.
Qed.

(** The premises of C7 hold for the store with two completed weeks; the
    window of 30 days before 2024-01-18 holds both. *)
Lemma get_success_rate_bounds_witness :
  let now := strptime_date 19740 in
  let rows :=
    filter (fun d => String.eqb (deadline_task d) "run")
           (deadlines (in_txn week_two_done)) in
  let overlaps (r : DeadlineRow) : Prop :=
    (now - timedelta 30 <= to_date r /\ to_date r <= now) \/
    (now - timedelta 30 <= from_date r /\ from_date r <= now) in
  exists q : Q,
    get_success_rate now "run" (Some 30) week_two_done
      = (Returned q, week_two_done) /\
    (0 <= q)%Q /\ (q <= 1)%Q /\
    ((forall r, In r rows -> ~ overlaps r) -> q = 0%Q).
Proof.
  refine (get_success_rate_bounds (strptime_date 19740) "run" (Some 30)
            week_two_done _ _ _).
  - intros d Hin. vm_compute in Hin.
    repeat (destruct Hin as [<-|Hin]; [right; reflexivity|]).
    destruct Hin.
  - by_computation.
  - split; by_computation.
Defined.

(** ** Listing *)


(** ** Tasks without intervals *)

(** C10, as stated, fails for large windows: [get_success_rate] builds
    the window start before it reads any row, so for a task that was never
    created and a window of 1000000 days before 2024-01-18 it raises
    [OverflowError] instead of returning 0.0. *)
Lemma analytics_overflow_counterexample :
  deadlines_of "walk" (in_txn fresh_connection) = [] /\
  fst (get_success_rate (strptime_date 19740) "walk" (Some 1000000)
         fresh_connection)
  = Raised OverflowError.
Proof. split; vm_compute; reflexivity. Qed.

(** C10, amended.  For a task with no stored interval (never created, or
    deleted), [get_streak] returns 0, and [get_success_rate] returns 0.0
    whenever its window (the length given, 30 days when it is 0 or absent)
    is within the range of [timedelta] and starts within the range of
    [datetime]; both return normally, as they do with the same values for a
    task whose intervals are all unchecked, so an unknown task is not told
    apart. *)
Theorem analytics_without_intervals {A : Affinity} (now : datetime)
    (task : string) (duration : option Z) (c : Connection) :
  let window :=
    match duration with
    | Some d => if d =? 0 then 30 else d
    | None => 30
    end in
  filter (fun d => String.eqb (deadline_task d) (affinity task))
         (deadlines (in_txn c)) = [] ->
  get_streak task c = (Returned 0, c) /\
  (Z.abs window <= timedelta_max_days ->
   datetime_min <= now - timedelta window <= datetime_max ->
   get_success_rate now task duration c = (Returned 0%Q, c)).
Proof.
  intros window H. change (deadlines_of task (in_txn c) = []) in H. split.
  - rewrite get_streak_run, H. reflexivity.
  - intros Hlen Hstart.
    pose proof (window_days_effective duration) as Hw. fold window in Hw.
    rewrite get_success_rate_run
      by (apply window_in_range_iff; rewrite Hw; split; assumption).
    cbv zeta. rewrite H. reflexivity.
Qed.

Lemma analytics_without_intervals_witness :
  (get_streak "run" fresh_connection = (Returned 0, fresh_connection) /\
   (Z.abs 30 <= timedelta_max_days ->
    datetime_min <= strptime_date 19740 - timedelta 30 <= datetime_max ->
    get_success_rate (strptime_date 19740) "run" (Some 30) fresh_connection
      = (Returned 0%Q, fresh_connection))) /\
  (get_streak "swim" scenario = (Returned 0, scenario) /\
   (Z.abs 30 <= timedelta_max_days ->
    datetime_min <= strptime_date 19740 - timedelta 30 <= datetime_max ->
    get_success_rate (strptime_date 19740) "swim" None scenario
      = (Returned 0%Q, scenario))).
Proof.
  split.
  - refine (analytics_without_intervals (strptime_date 19740) "run" (Some 30)
              fresh_connection _).
    reflexivity.
  - refine (analytics_without_intervals (strptime_date 19740) "swim" None
              scenario _).
    vm_compute. reflexivity.
Defined.

Example analytics_without_intervals_values :
  get_success_rate (strptime_date 19740) "swim" None scenario
    = (Returned 0%Q, scenario) /\
  get_success_rate (strptime_date 19740) "swim" (Some 1000000) scenario
    = (Raised OverflowError, scenario).
Proof. split; vm_compute; reflexivity. Qed.

(** An existing task whose intervals are all unchecked gets the same two
    values as a task without intervals. *)
Lemma analytics_unchecked {A : Affinity} (now : datetime) (task : string)
    (duration : option Z) (c : Connection) :
  (forall d, In d (deadlines_of task (in_txn c)) -> checked_off d = 0) ->
  get_streak task c = (Returned 0, c) /\
  (window_in_range now duration = true ->
   get_success_rate now task duration c = (Returned 0%Q, c)).
Proof.
  intros H. split.
  - rewrite get_streak_run, longest_run_none; [reflexivity|].
    intros d Hd. unfold completed, truthy. rewrite (H d Hd). reflexivity.
  - intros Hin. rewrite get_success_rate_run by exact Hin. cbv zeta.
    rewrite sum_checked_none.
    + rewrite rate_zero. reflexivity.
    + intros d Hd. apply H. unfold filtered_data in Hd.
      apply filter_In in Hd. apply Hd.
Qed.

(** ** The store invariant *)

Lemma has_habit_more {A : Affinity} (t t' : Tables) (d : DeadlineRow) :
  (forall h, In h (habits t) -> In h (habits t')) ->
  has_habit t d -> has_habit t' d.
Proof.
  intros Hsub (h & Hin & Htask & Hlen).
  exists h. split; [apply Hsub, Hin | split; assumption].
Qed.

Lemma habit_ids_append (t : Tables) (h : HabitRow) :
  NoDup (map habit_id (habits t)) ->
  Forall (fun x => habit_id x <= habits_seq t) (habits t) ->
  habit_id h = habits_seq t + 1 ->
  NoDup (map habit_id (habits t ++ [h])) /\
  Forall (fun x => habit_id x <= habits_seq t + 1) (habits t ++ [h]).
Proof.
  intros Hnd Hle Hid. split.
  - rewrite map_app. cbn [map].
    apply NoDup_app; [exact Hnd | repeat constructor; intros [] |].
    intros a Ha [<-|[]].
    apply in_map_iff in Ha. destruct Ha as (x & Hx & Hin).
    rewrite Forall_forall in Hle. specialize (Hle x Hin). cbn in Hle. lia.
  - apply Forall_app. split.
    + eapply Forall_impl; [|exact Hle]. cbn. intros; lia.
    + constructor; [lia | constructor].
Qed.

Lemma store_ok_insert_habit_row {A : Affinity} (task : string) (period : Z) (start : date)
    (d : Z) (t : Tables) :
  store_ok t -> store_ok (sql_insert_habit task period start d t).
Proof.
  intros (Hwf & Hnd & Hle & Hst & Hh).
  destruct (habit_ids_append t (mkHabit (habits_seq t + 1) task period start d)
              Hnd Hle eq_refl) as [Hnd' Hle'].
  unfold store_ok, sql_insert_habit.
  cbn [habits deadlines habits_seq deadlines_seq].
  split; [exact Hwf|]. split; [exact Hnd'|]. split; [exact Hle'|].
  split; [exact Hst|].
  eapply Forall_impl; [|exact Hh].
  intros r Hr. eapply has_habit_more; [|exact Hr].
  cbn [habits]. intros h Hin. apply in_or_app. left. exact Hin.
Qed.

Lemma store_ok_inserted {A : Affinity} (now : datetime) (task : string) (period : Z)
    (duration : option Z) (date_ : option date) (t : Tables) :
  store_ok t -> store_ok (inserted now task period duration date_ t).
Proof.
  intros Hok.
  assert (wf_tables (inserted now task period duration date_ t)) as Hwf.
  { rewrite inserted_as_loop. apply wf_insert_deadlines.
    destruct Hok as (Hwf & _). exact Hwf. }
  destruct Hok as (_ & Hnd & Hle & Hst & Hh).
  set (d := match duration with Some d => d | None => 365 end).
  set (start := match date_ with Some s => s | None => strftime_date now end).
  destruct (habit_ids_append t (mkHabit (habits_seq t + 1) task period start d)
              Hnd Hle eq_refl) as [Hnd' Hle'].
  split; [exact Hwf|].
  unfold inserted. fold d start.
  cbn [habits deadlines habits_seq deadlines_seq].
  split; [exact Hnd'|]. split; [exact Hle'|].
  split.
  - apply Forall_app. split; [exact Hst|].
    apply Forall_map. apply Forall_forall. intros i _.
    left. split; reflexivity.
  - apply Forall_app. split.
    + eapply Forall_impl; [|exact Hh].
      intros r Hr. eapply has_habit_more; [|exact Hr].
      cbn [habits]. intros h Hin. apply in_or_app. left. exact Hin.
    + apply Forall_map. apply Forall_forall. intros i _.
      exists (mkHabit (habits_seq t + 1) task period start d).
      cbn [habits habit_task habit_period scheduled_row deadline_task
           from_date to_date].
      split; [apply in_or_app; right; left; reflexivity|].
      split; [reflexivity|].
      unfold timedelta, usec_per_day. lia.
Qed.

Lemma set_checked_fields (at_ : datetime) (id : Z) (r : DeadlineRow) :
  deadline_id (set_checked at_ id r) = deadline_id r /\
  deadline_task (set_checked at_ id r) = deadline_task r /\
  from_date (set_checked at_ id r) = from_date r /\
  to_date (set_checked at_ id r) = to_date r.
Proof.
  unfold set_checked. destruct (deadline_id r =? id); repeat split.
Qed.

Lemma store_ok_check_off {A : Affinity} (at_ : datetime) (id : Z) (t : Tables) :
  store_ok t -> store_ok (sql_check_off at_ id t).
Proof.
  intros (Hwf & Hnd & Hle & Hst & Hh).
  split; [apply wf_check_off, Hwf|].
  unfold sql_check_off. cbn [habits deadlines habits_seq deadlines_seq].
  split; [exact Hnd|]. split; [exact Hle|].
  split.
  - apply Forall_map. eapply Forall_impl; [|exact Hst].
    intros r Hr. unfold set_checked.
    destruct (deadline_id r =? id); [|exact Hr].
    right. split; [reflexivity | exists at_; reflexivity].
  - apply Forall_map. eapply Forall_impl; [|exact Hh].
    intros r (h & Hin & Htask & Hlen).
    destruct (set_checked_fields at_ id r) as (_ & Et & Ef & E2).
    exists h. cbn [habits] in *. rewrite Et, Ef, E2.
    split; [exact Hin | split; assumption].
Qed.

Lemma habit_ids_filter (keep : HabitRow -> bool) :
  forall rows : list HabitRow,
    NoDup (map habit_id rows) ->
    NoDup (map habit_id (filter keep rows)).
Proof.
  intros rows. induction rows as [|h rows IH]; cbn [filter map]; intros Hnd.
  - constructor.
  - apply NoDup_cons_iff in Hnd. destruct Hnd as [Hfresh Hrest].
    destruct (keep h); [|exact (IH Hrest)].
    cbn [map]. apply NoDup_cons_iff. split; [|exact (IH Hrest)].
    rewrite in_map_iff. intros (h' & Hid & Hh').
    apply Hfresh. rewrite <- Hid. apply in_map.
    apply filter_In in Hh'. exact (proj1 Hh').
Qed.

Lemma store_ok_delete_task {A : Affinity} (task : string) (t : Tables) :
  store_ok t -> store_ok (sql_delete_task task t).
Proof.
  intros (Hwf & Hnd & Hle & Hst & Hh).
  split; [apply wf_delete_task, Hwf|].
  unfold sql_delete_task. cbn [habits deadlines habits_seq deadlines_seq].
  split; [apply habit_ids_filter, Hnd|].
  split.
  { apply Forall_forall. intros h Hin. apply filter_In in Hin.
    rewrite Forall_forall in Hle. apply Hle, Hin. }
  split.
  { apply Forall_forall. intros r Hin. apply filter_In in Hin.
    rewrite Forall_forall in Hst. apply Hst, Hin. }
  apply Forall_forall. intros r Hin. apply filter_In in Hin.
  destruct Hin as [Hin Hkeep].
  rewrite Forall_forall in Hh. destruct (Hh r Hin) as (h & Hhin & Htask & Hlen).
  exists h. cbn [habits]. split; [|split; assumption].
  apply filter_In. split; [exact Hhin|].
  destruct (String.eqb_spec (habit_task h) task) as [E|E]; [|reflexivity].
  exfalso. rewrite E in Htask. rewrite <- Htask, String.eqb_refl in Hkeep.
  discriminate.
Qed.

Lemma store_ok_delete_all {A : Affinity} (t : Tables) : store_ok (sql_delete_all t) .
Proof.
  unfold store_ok, wf_tables, sql_delete_all. cbn.
  repeat split; constructor.
Qed.

Lemma store_ok_empty {A : Affinity} : store_ok empty_tables.
Proof. unfold store_ok, wf_tables, empty_tables. cbn. repeat split; constructor. Qed.

Lemma exec_keeps_store_ok {A : Affinity} (k : call) (c : Connection) :
  store_ok (committed c) -> store_ok (in_txn c) ->
  store_ok (committed (snd (exec k c))) /\ store_ok (in_txn (snd (exec k c))).
Proof.
  intros Hc Ht.
  destruct k as [now task period duration date_ | p | task
                | now task date_ | task | now task duration];
    unfold exec, bind.
  - rewrite insert_habit_effect. cbv zeta.
    destruct (in_int64 period && in_int64 _);
      [|cbn [snd committed in_txn ret]; split; assumption].
    destruct (period =? 0); cbn [snd committed in_txn ret].
    + split; [exact Hc | apply store_ok_insert_habit_row, Ht].
    + destruct (forallb _ _); cbn [snd committed in_txn ret].
      * split; apply store_ok_inserted, Ht.
      * split; [exact Hc | apply store_ok_inserted, Ht].
  - destruct p as [p|]; cbn; [destruct (truthy p); cbn|]; split; assumption.
  - rewrite delete_habit_effect.
    destruct (nonempty task); cbn [snd committed in_txn ret].
    + split; apply store_ok_delete_task, Ht.
    + split; apply store_ok_delete_all.
  - rewrite check_off_habit_effect.
    destruct (scan_for_id _ _); cbn [snd committed in_txn ret].
    + split; apply store_ok_check_off, Ht.
    + split; assumption.
  - cbn. split; assumption.
  - rewrite get_success_rate_effect. cbv zeta.
    destruct (window_in_range now duration); cbn; split; assumption.
Qed.

Lemma session_from_store_ok {A : Affinity} (ks : list call) :
  forall c : Connection,
    store_ok (committed c) -> store_ok (in_txn c) ->
    store_ok (in_txn (session_from c ks)) /\
    store_ok (committed (session_from c ks)).
Proof.
  induction ks as [|k ks IH]; intros c Hc Ht; cbn [session_from fold_left].
  - split; assumption.
  - destruct (exec_keeps_store_ok k c Hc Ht) as [Hc' Ht'].
    apply (IH _ Hc' Ht').
Qed.

(** X1.  In every state reached from a fresh database by calls of the
    methods, also by calls that raise and leave a schedule cut short, in
    the transaction and as committed: deadline ids are pairwise distinct
    and so are habit ids, none above its counter; every deadline row is
    either unchecked without a completion date or has [checked_off = 1]
    with one; and every deadline row has a habit row whose task name the
    deadlines column coerces to the row's task value, and is one period of
    that habit long. *)
Theorem session_store_ok {A : Affinity} (ks : list call) :
  store_ok (in_txn (session ks)) /\ store_ok (committed (session ks)).
Proof.
  unfold session. apply session_from_store_ok; apply store_ok_empty.
Qed.

(** X2.  In every state reached from a fresh database, for every task,
    window and reference time: when the window (the length given, 30 days
    when it is 0 or absent) is within the range of [timedelta] and starts
    within the range of [datetime], [get_success_rate] returns a value
    between 0 and 1; otherwise it raises [OverflowError]. *)
Theorem session_success_rate_bounds {A : Affinity} (ks : list call)
    (now : datetime) (task : string) (duration : option Z) :
  let window :=
    match duration with
    | Some d => if d =? 0 then 30 else d
    | None => 30
    end in
  let in_range :=
    Z.abs window <= timedelta_max_days /\
    datetime_min <= now - timedelta window <= datetime_max in
  (in_range ->
   exists q : Q,
     get_success_rate now task duration (session ks)
       = (Returned q, session ks) /\
     (0 <= q)%Q /\ (q <= 1)%Q) /\
  (~ in_range ->
   get_success_rate now task duration (session ks)
     = (Raised OverflowError, session ks)).
Proof.
  intros window in_range.
  pose proof (window_days_effective duration) as Hw. fold window in Hw.
  pose proof (window_in_range_iff now duration) as Hiff. rewrite Hw in Hiff.
  rewrite get_success_rate_effect. cbv zeta.
  destruct (window_in_range now duration).
  - split; [|intros Hn; exfalso; apply Hn, Hiff; reflexivity].
    intros _. eexists. split; [reflexivity|].
    apply rate_bounds. apply sum_checked_bounds.
    intros d Hd. unfold filtered_data in Hd. apply filter_In in Hd.
    destruct Hd as [Hd _]. apply filter_In in Hd. destruct Hd as [Hd _].
    destruct (session_from_store_ok ks fresh_connection store_ok_empty
                store_ok_empty) as [(_ & _ & _ & Hst & _) _].
    fold (session ks) in Hst.
    rewrite Forall_forall in Hst.
    destruct (Hst d Hd) as [[H _]|[H _]]; [left | right]; exact H.
  - split; [|reflexivity].
    intros Hr. apply Hiff in Hr. discriminate Hr.
Qed.

(** ** Exceptions *)

Lemma scan_for_id_some (at_ : datetime) (l : list DeadlineRow) (id : Z) :
  scan_for_id at_ l = Some id ->
  exists l1 r l2,
    l = l1 ++ r :: l2 /\ id = deadline_id r /\
    Forall (fun x => contains at_ x = false) l1 /\
    contains at_ r = true.
Proof.
  induction l as [|x l IH]; cbn [scan_for_id]; [discriminate|].
  fold (contains at_ x). destruct (contains at_ x) eqn:E.
  - intros [= <-]. exists [], x, l. repeat split; [constructor | exact E].
  - intros H. destruct (IH H) as (l1 & r & l2 & -> & Hid & Hl1 & Hr).
    exists (x :: l1), r, l2. repeat split; try assumption.
    constructor; assumption.
Qed.

(** X3.  A call that raises commits nothing, and it neither removes nor
    changes a row that was in the transaction: the habit rows and deadline
    rows after it are those before it, possibly followed by rows that
    [insert_habit] wrote before it raised. *)
Theorem raise_commits_nothing {A : Affinity} (k : call) (c : Connection)
    (e : exn) :
  fst (exec k c) = Raised e ->
  committed (snd (exec k c)) = committed c /\
  (exists more, habits (in_txn (snd (exec k c))) = habits (in_txn c) ++ more) /\
  (exists more,
     deadlines (in_txn (snd (exec k c))) = deadlines (in_txn c) ++ more).
Proof.
  assert (forall t : Tables,
            (exists more, habits t = habits t ++ more) /\
            (exists more, deadlines t = deadlines t ++ more)) as Hsame
    by (intros t; split; exists []; symmetry; apply app_nil_r).
  destruct k as [now task period duration date_ | p | task
                | now task date_ | task | now task duration];
    unfold exec, bind.
  - rewrite insert_habit_effect. cbv zeta.
    destruct (in_int64 period && in_int64 _);
      [|cbn; intros _; split; [reflexivity | apply Hsame]].
    destruct (period =? 0).
    + cbn. intros _. split; [reflexivity|].
      split; [eexists; reflexivity | exists []; symmetry; apply app_nil_r].
    + destruct (forallb _ _); cbn; [discriminate|].
      intros _. split; [reflexivity|]. split; eexists; reflexivity.
  - destruct p as [p|]; cbn; [destruct (truthy p); cbn|]; discriminate.
  - rewrite delete_habit_effect. destruct (nonempty task); cbn; discriminate.
  - rewrite check_off_habit_effect. cbv zeta.
    destruct (scan_for_id _ _); cbn [fst snd ret]; [discriminate|].
    intros _. split; [reflexivity | apply Hsame].
  - cbn. discriminate.
  - rewrite get_success_rate_effect. cbv zeta.
    destruct (window_in_range now duration); cbn; [discriminate|].
    intros _. split; [reflexivity | apply Hsame].
Qed.

Lemma raise_commits_nothing_witness :
  let k := Call_insert_habit 0 "big" 1000000 (Some 3000000)
             (Some day_2024_01_01) in
  committed (snd (exec k scenario)) = committed scenario /\
  (exists more,
     habits (in_txn (snd (exec k scenario))) = habits (in_txn scenario) ++ more) /\
  (exists more,
     deadlines (in_txn (snd (exec k scenario)))
       = deadlines (in_txn scenario) ++ more).
Proof.
  refine (raise_commits_nothing
            (Call_insert_habit 0 "big" 1000000 (Some 3000000)
               (Some day_2024_01_01))
            scenario OverflowError _).
  vm_compute. reflexivity.
Defined.

(** ** Deleting *)

Lemma filter_filter_keep {A : Type} (p q : A -> bool) (l : list A) :
  (forall x, p x = true -> q x = true) ->
  filter p (filter q l) = filter p l.
Proof.
  intros H. induction l as [|x l IH]; [reflexivity|].
  cbn [filter]. destruct (q x) eqn:Eq; cbn [filter].
  - rewrite IH. reflexivity.
  - rewrite IH. destruct (p x) eqn:Ep; [|reflexivity].
    rewrite (H x Ep) in Eq. discriminate.
Qed.

Lemma filter_filter_drop {A : Type} (p q : A -> bool) (l : list A) :
  (forall x, p x = true -> q x = false) ->
  filter p (filter q l) = [].
Proof.
  intros H. induction l as [|x l IH]; [reflexivity|].
  cbn [filter]. destruct (q x) eqn:Eq; cbn [filter]; [|exact IH].
  rewrite IH. destruct (p x) eqn:Ep; [|reflexivity].
  rewrite (H x Ep) in Eq. discriminate.
Qed.

Lemma other_task_kept (task other x : string) :
  other <> task -> String.eqb x other = true ->
  negb (String.eqb x task) = true.
Proof.
  intros Hne Hx. apply String.eqb_eq in Hx. subst x.
  destruct (String.eqb_spec other task); [contradiction | reflexivity].
Qed.

(** X4.  [delete_habit] with a non-empty task name returns normally and
    commits; afterwards no deadline row carries the task's value and no
    habit row its name.  The habit rows of every other name are as before,
    and so are the deadline rows of every name that the deadlines column
    does not coerce to the same value; a name that it does coerce to the
    same value ('007' for '7') loses its deadline rows too.  The two id
    counters are kept. *)
Theorem delete_habit_cascade {A : Affinity} (task : string) (c : Connection) :
  task <> ""%string ->
  exists c' : Connection,
    delete_habit (nonempty (Some task)) c = (Returned tt, c') /\
    committed c' = in_txn c' /\
    (forall d, In d (deadlines (in_txn c')) -> deadline_task d <> affinity task) /\
    (forall h, In h (habits (in_txn c')) -> habit_task h <> task) /\
    (forall other, affinity other <> affinity task ->
       deadlines_of other (in_txn c') = deadlines_of other (in_txn c)) /\
    (forall other, affinity other = affinity task ->
       deadlines_of other (in_txn c') = []) /\
    (forall other, other <> task ->
       filter (fun h => String.eqb (habit_task h) other) (habits (in_txn c')) =
       filter (fun h => String.eqb (habit_task h) other) (habits (in_txn c))) /\
    habits_seq (in_txn c') = habits_seq (in_txn c) /\
    deadlines_seq (in_txn c') = deadlines_seq (in_txn c).
Proof.
  intros Hne.
  assert (nonempty (Some task) = Some task) as ->
    by (destruct task; [contradiction | reflexivity]).
  eexists. split; [reflexivity|].
  cbn [committed in_txn]. split; [reflexivity|].
  unfold deadlines_of, sql_delete_task.
  cbn [habits deadlines habits_seq deadlines_seq].
  split.
  { intros d Hin E. apply filter_In in Hin. destruct Hin as [_ Hk].
    rewrite E, String.eqb_refl in Hk. discriminate. }
  split.
  { intros h Hin <-. apply filter_In in Hin. destruct Hin as [_ Hk].
    rewrite String.eqb_refl in Hk. discriminate. }
  split.
  { intros other Ho. apply filter_filter_keep. intros x Hx.
    apply (other_task_kept (affinity task) (affinity other) _ Ho Hx). }
  split.
  { intros other Ho. apply filter_filter_drop. intros x Hx.
    rewrite Ho in Hx. rewrite Hx. reflexivity. }
  split; [|split; reflexivity].
  intros other Ho. apply filter_filter_keep. intros x Hx.
  apply (other_task_kept task other _ Ho Hx).
Qed.

(** Two habits, "run" and "swim"; deleting "run" keeps the habit row and
    the five deadline rows of "swim". *)
Lemma delete_habit_cascade_witness :
  exists c' : Connection,
    delete_habit (nonempty (Some "run"%string)) two_habits = (Returned tt, c') /\
    committed c' = in_txn c' /\
    (forall d, In d (deadlines (in_txn c')) -> deadline_task d <> "run"%string) /\
    (forall h, In h (habits (in_txn c')) -> habit_task h <> "run"%string) /\
    (forall other, affinity other <> affinity "run"%string ->
       deadlines_of other (in_txn c') = deadlines_of other (in_txn two_habits)) /\
    (forall other, affinity other = affinity "run"%string ->
       deadlines_of other (in_txn c') = []) /\
    (forall other, other <> "run"%string ->
       filter (fun h => String.eqb (habit_task h) other) (habits (in_txn c')) =
       filter (fun h => String.eqb (habit_task h) other)
              (habits (in_txn two_habits))) /\
    habits_seq (in_txn c') = habits_seq (in_txn two_habits) /\
    deadlines_seq (in_txn c') = deadlines_seq (in_txn two_habits).
Proof.
  refine (delete_habit_cascade "run" two_habits _). discriminate.
Defined.

Example delete_habit_keeps_other :
  List.length (deadlines_of "swim" (in_txn two_habits)) = 5%nat /\
  List.length (deadlines_of "swim"
                 (in_txn (snd (delete_habit (Some "run"%string) two_habits))))
    = 5%nat /\
  deadlines_of "run"
    (in_txn (snd (delete_habit (Some "run"%string) two_habits))) = [].
Proof. repeat split; vm_compute; reflexivity. Qed.

(** ** Tasks do not interfere *)

Lemma deadline_id_injective (rows : list DeadlineRow) (a b : DeadlineRow) :
  NoDup (map deadline_id rows) -> In a rows -> In b rows ->
  deadline_id a = deadline_id b -> a = b.
Proof.
  induction rows as [|x rows IH]; intros Hnd Ha Hb Hid; [destruct Ha|].
  cbn [map] in Hnd. apply NoDup_cons_iff in Hnd. destruct Hnd as [Hx Hnd].
  destruct Ha as [->|Ha], Hb as [->|Hb].
  - reflexivity.
  - exfalso. apply Hx. rewrite Hid. apply in_map, Hb.
  - exfalso. apply Hx. rewrite <- Hid. apply in_map, Ha.
  - apply IH; assumption.
Qed.

Lemma deadlines_of_check_off {A : Affinity} (at_ : datetime) (id : Z)
    (task : string) (t : Tables) :
  deadlines_of task (sql_check_off at_ id t) =
  map (set_checked at_ id) (deadlines_of task t).
Proof.
  unfold deadlines_of, sql_check_off. cbn [deadlines].
  induction (deadlines t) as [|x l IH]; [reflexivity|].
  cbn [map filter].
  destruct (set_checked_fields at_ id x) as (_ & -> & _ & _).
  destruct (String.eqb (deadline_task x) (affinity task)); cbn [map];
    rewrite IH; reflexivity.
Qed.

Lemma deadlines_of_inserted {A : Affinity} (now : datetime)
    (task other : string) (period : Z) (duration : option Z)
    (date_ : option date) (t : Tables) :
  affinity other <> affinity task ->
  deadlines_of other (inserted now task period duration date_ t) =
  deadlines_of other t.
Proof.
  intros Hne. unfold deadlines_of, inserted. cbn [deadlines].
  rewrite filter_app.
  set (new := map _ _).
  assert (filter (fun d => String.eqb (deadline_task d) (affinity other)) new
          = []) as ->.
  { subst new. induction (written _ _ _) as [|i l IH]; [reflexivity|].
    cbn [map filter]. cbn [scheduled_row deadline_task].
    destruct (String.eqb_spec (affinity task) (affinity other));
      [congruence | exact IH]. }
  apply app_nil_r.
Qed.

Lemma insert_habit_in_txn {A : Affinity} (now : datetime) (task : string)
    (period : Z) (duration : option Z) (date_ : option date)
    (c : Connection) :
  let d := match duration with Some d => d | None => 365 end in
  let start := match date_ with Some s => s | None => strftime_date now end in
  in_txn (snd (insert_habit now task period duration date_ c)) =
  if in_int64 period && in_int64 d
  then if period =? 0
       then sql_insert_habit task period start d (in_txn c)
       else inserted now task period duration date_ (in_txn c)
  else in_txn c.
Proof.
  intros d start. rewrite insert_habit_effect. cbv zeta. fold d start.
  destruct (in_int64 period && in_int64 d); [|reflexivity].
  destruct (period =? 0); [reflexivity|].
  destruct (forallb _ _); reflexivity.
Qed.

(** X5.  While deadline ids are distinct, [insert_habit] and
    [check_off_habit] for one task name, whatever their outcome, leave the
    deadline rows of every task name that the deadlines column does not
    coerce to the same value as they were, and with them the outcomes of
    [get_streak] and [get_success_rate] for those tasks. *)
Theorem other_tasks_untouched {A : Affinity} (now : datetime)
    (task other : string) (period : Z) (duration : option Z)
    (date_ : option date) (at_ : option datetime) (c : Connection) :
  wf_tables (in_txn c) -> affinity other <> affinity task ->
  let c1 := snd (insert_habit now task period duration date_ c) in
  let c2 := snd (check_off_habit now task at_ c) in
  (deadlines_of other (in_txn c1) = deadlines_of other (in_txn c) /\
   deadlines_of other (in_txn c2) = deadlines_of other (in_txn c)) /\
  (fst (get_streak other c1) = fst (get_streak other c) /\
   fst (get_streak other c2) = fst (get_streak other c)) /\
  (forall (now' : datetime) (w : option Z),
     fst (get_success_rate now' other w c1) = fst (get_success_rate now' other w c) /\
     fst (get_success_rate now' other w c2) = fst (get_success_rate now' other w c)).
Proof.
  intros [Hnd _] Hne c1 c2.
  assert (deadlines_of other (in_txn c1) = deadlines_of other (in_txn c)) as H1.
  { subst c1. rewrite insert_habit_in_txn. cbv zeta.
    destruct (in_int64 period && in_int64 _); [|reflexivity].
    destruct (period =? 0); [reflexivity|].
    apply deadlines_of_inserted, Hne. }
  assert (deadlines_of other (in_txn c2) = deadlines_of other (in_txn c)) as H2.
  { subst c2. rewrite check_off_habit_effect. cbv zeta.
    destruct (scan_for_id _ _) as [id|] eqn:E; cbn [snd in_txn]; [|reflexivity].
    rewrite deadlines_of_check_off. apply set_checked_other.
    intros Hin. apply in_map_iff in Hin. destruct Hin as (x & Hid & Hx).
    destruct (scan_for_id_some _ _ _ E) as (l1 & r & l2 & Hl & -> & _ & _).
    assert (In r (deadlines_of task (in_txn c))) as Hr
      by (rewrite Hl; apply in_elt).
    apply filter_In in Hx. apply filter_In in Hr.
    destruct Hx as [Hx Hxt], Hr as [Hr Hrt].
    assert (x = r) as ->
      by (apply (deadline_id_injective _ _ _ Hnd Hx Hr Hid)).
    apply String.eqb_eq in Hxt, Hrt. congruence. }
  split; [split; assumption|].
  split.
  - rewrite !get_streak_run. cbn [fst]. rewrite H1, H2. split; reflexivity.
  - intros now' w. rewrite !get_success_rate_effect. cbv zeta.
    rewrite H1, H2.
    destruct (window_in_range now' w); split; reflexivity.
Qed.

(** In the store with the habits "run" and "swim", a second "run" habit
    and a check-off of "run" leave the five intervals of "swim" alone. *)
Lemma other_tasks_untouched_witness :
  let c1 := snd (insert_habit 0 "run" 7 (Some 30) (Some 19730) two_habits) in
  let c2 := snd (check_off_habit 0 "run" (Some (strptime_date 19732))
                   two_habits) in
  (deadlines_of "swim" (in_txn c1) = deadlines_of "swim" (in_txn two_habits) /\
   deadlines_of "swim" (in_txn c2) = deadlines_of "swim" (in_txn two_habits)) /\
  (fst (get_streak "swim" c1) = fst (get_streak "swim" two_habits) /\
   fst (get_streak "swim" c2) = fst (get_streak "swim" two_habits)) /\
  (forall (now' : datetime) (w : option Z),
     fst (get_success_rate now' "swim" w c1)
       = fst (get_success_rate now' "swim" w two_habits) /\
     fst (get_success_rate now' "swim" w c2)
       = fst (get_success_rate now' "swim" w two_habits)).
Proof.
  refine (other_tasks_untouched 0 "run" "swim" 7 (Some 30) (Some 19730)
            (Some (strptime_date 19732)) two_habits _ _).
  - apply wf_insert_habit. exact wf_scenario.
  - discriminate.
Defined.

(** ** A zero period leaves a habit behind *)

(** X6.  After [insert_habit] has raised on a zero period (with a
    duration that fits 64 bits), the habit row it wrote is returned by
    [list_habits] on the same connection, although nothing was committed
    and no deadline row was written; the next call that commits
    ([delete_habit] of another, non-empty task name, an [insert_habit]
    that returns normally, or a [check_off_habit] that returns normally)
    makes that habit row durable. *)
Theorem zero_period_habit_stays {A : Affinity} (now : datetime)
    (task : string) (duration : option Z) (date_ : option date)
    (c : Connection) :
  let d := match duration with Some d => d | None => 365 end in
  let start := match date_ with Some s => s | None => strftime_date now end in
  let row := mkHabit (habits_seq (in_txn c) + 1) task 0 start d in
  let c1 := snd (insert_habit now task 0 duration date_ c) in
  - 9223372036854775808 <= d <= 9223372036854775807 ->
  fst (insert_habit now task 0 duration date_ c) = Raised ZeroDivisionError /\
  fst (list_habits None c1) = Returned (habits (in_txn c) ++ [row]) /\
  committed c1 = committed c /\
  deadlines (in_txn c1) = deadlines (in_txn c) /\
  (forall other, other <> ""%string -> other <> task ->
     In row (habits (committed
                       (snd (delete_habit (nonempty (Some other)) c1))))) /\
  (forall now' task' period' duration' date',
     fst (insert_habit now' task' period' duration' date' c1) = Returned tt ->
     In row (habits (committed
                       (snd (insert_habit now' task' period' duration' date' c1))))) /\
  (forall now' task' at',
     fst (check_off_habit now' task' at' c1) = Returned tt ->
     In row (habits (committed (snd (check_off_habit now' task' at' c1))))).
Proof.
  intros d start row c1 Hd.
  assert (insert_habit now task 0 duration date_ c =
          (Raised ZeroDivisionError,
           mkConnection (committed c)
                        (sql_insert_habit task 0 start d (in_txn c)))) as Hrun.
  { rewrite insert_habit_effect. cbv zeta. fold d start.
    assert (in_int64 d = true) as -> by (apply in_int64_iff; exact Hd).
    reflexivity. }
  assert (c1 = mkConnection (committed c)
                 (sql_insert_habit task 0 start d (in_txn c))) as Hc1
    by (subst c1; rewrite Hrun; reflexivity).
  assert (In row (habits (in_txn c1))) as Hin.
  { rewrite Hc1. cbn [in_txn sql_insert_habit habits].
    apply in_or_app. right. left. reflexivity. }
  split; [rewrite Hrun; reflexivity|].
  split; [rewrite Hc1; reflexivity|].
  split; [rewrite Hc1; reflexivity|].
  split; [rewrite Hc1; reflexivity|].
  split.
  { intros other Hne Ho.
    assert (nonempty (Some other) = Some other) as ->
      by (destruct other; [contradiction | reflexivity]).
    rewrite delete_habit_effect.
    cbn [snd committed sql_delete_task habits].
    apply filter_In. split; [exact Hin|].
    cbn [row habit_task].
    destruct (String.eqb_spec task other); [congruence | reflexivity]. }
  split.
  { intros now' task' period' duration' date'.
    rewrite insert_habit_effect. cbv zeta.
    destruct (in_int64 period' && in_int64 _); [|discriminate].
    destruct (period' =? 0); [discriminate|].
    destruct (forallb _ _); [|discriminate].
    intros _. cbn [snd committed inserted habits].
    apply in_or_app. left. exact Hin. }
  intros now' task' at'. rewrite check_off_habit_effect. cbv zeta.
  destruct (scan_for_id _ _); cbn [fst snd committed]; [|discriminate].
  intros _. exact Hin.
Qed.

Lemma zero_period_habit_stays_witness :
  let row := mkHabit 2 "nap" 0 day_2024_01_01 30 in
  let c1 := snd (insert_habit 0 "nap" 0 (Some 30) (Some day_2024_01_01)
                   scenario) in
  fst (insert_habit 0 "nap" 0 (Some 30) (Some day_2024_01_01) scenario)
    = Raised ZeroDivisionError /\
  fst (list_habits None c1) = Returned (habits (in_txn scenario) ++ [row]) /\
  committed c1 = committed scenario /\
  deadlines (in_txn c1) = deadlines (in_txn scenario) /\
  (forall other, other <> ""%string -> other <> "nap"%string ->
     In row (habits (committed
                       (snd (delete_habit (nonempty (Some other)) c1))))) /\
  (forall now' task' period' duration' date',
     fst (insert_habit now' task' period' duration' date' c1) = Returned tt ->
     In row (habits (committed
                       (snd (insert_habit now' task' period' duration' date' c1))))) /\
  (forall now' task' at',
     fst (check_off_habit now' task' at' c1) = Returned tt ->
     In row (habits (committed (snd (check_off_habit now' task' at' c1))))).
Proof.
  refine (zero_period_habit_stays 0 "nap" (Some 30) (Some day_2024_01_01)
            scenario _).
  split; by_computation.
Defined.

(** ** Checking off again *)






(** ** Check-off and the analytics *)

Lemma completed_set_checked (at_ : datetime) (id : Z) (r : DeadlineRow) :
  completed r = true -> completed (set_checked at_ id r) = true.
Proof.
  intros H. unfold set_checked. destruct (deadline_id r =? id); [reflexivity | exact H].
Qed.

Lemma leading_run_map_mono (f : DeadlineRow -> DeadlineRow)
    (rows : list DeadlineRow) :
  (forall r, completed r = true -> completed (f r) = true) ->
  (leading_run rows <= leading_run (map f rows))%nat.
Proof.
  intros Hf. induction rows as [|d rows IH]; [apply Nat.le_refl|].
  cbn [map leading_run]. destruct (completed d) eqn:E.
  - rewrite (Hf d E). apply le_n_S, IH.
  - apply Nat.le_0_l.
Qed.

Lemma longest_run_map_mono (f : DeadlineRow -> DeadlineRow)
    (rows : list DeadlineRow) :
  (forall r, completed r = true -> completed (f r) = true) ->
  (longest_run rows <= longest_run (map f rows))%nat.
Proof.
  intros Hf. induction rows as [|d rows IH]; [apply Nat.le_refl|].
  cbn [longest_run]. change (map f (d :: rows)) with (f d :: map f rows).
  cbn [longest_run].
  apply Nat.max_le_compat; [|exact IH].
  apply (leading_run_map_mono f (d :: rows) Hf).
Qed.

Lemma longest_run_positive (rows : list DeadlineRow) (r : DeadlineRow) :
  In r rows -> completed r = true -> (1 <= longest_run rows)%nat.
Proof.
  intros Hin Hr. apply in_split in Hin. destruct Hin as (l1 & l2 & ->).
  apply (longest_run_bound (l1 ++ r :: l2) [r]).
  split; [exists l1, l2; reflexivity | repeat constructor; exact Hr].
Qed.

(** X8.  A check-off never lowers a streak: for every task, the value of
    [get_streak] after [check_off_habit] is at least the value before; and
    after a check-off that returned normally the streak of its task is at
    least 1. *)
Theorem check_off_habit_streak {A : Affinity} (now : datetime) (task other : string)
    (date_ : option datetime) (c : Connection) :
  let c' := snd (check_off_habit now task date_ c) in
  exists s s' : Z,
    get_streak other c = (Returned s, c) /\
    get_streak other c' = (Returned s', c') /\
    s <= s' /\
    (fst (check_off_habit now task date_ c) = Returned tt ->
     other = task -> 1 <= s').
Proof.
  intros c'. eexists _, _.
  split; [apply get_streak_run|]. split; [apply get_streak_run|].
  subst c'. rewrite check_off_habit_effect. cbv zeta.
  destruct (scan_for_id _ _) as [id|] eqn:E; cbn [fst snd in_txn].
  - rewrite deadlines_of_check_off. split.
    + apply Nat2Z.inj_le, longest_run_map_mono.
      intros r. apply completed_set_checked.
    + intros _ ->.
      destruct (scan_for_id_some _ _ _ E) as (l1 & r & l2 & Hl & -> & _ & _).
      change 1 with (Z.of_nat 1). apply Nat2Z.inj_le.
      apply (longest_run_positive _ (set_checked
               (match date_ with Some d => d | None => now end)
               (deadline_id r) r)).
      * apply in_map. rewrite Hl. apply in_elt.
      * unfold set_checked. rewrite Z.eqb_refl. reflexivity.
  - split; [lia | discriminate].
Qed.

Lemma in_window_set_checked (from_ current_time at_ : datetime) (id : Z)
    (r : DeadlineRow) :
  in_window from_ current_time (set_checked at_ id r) =
  in_window from_ current_time r.
Proof.
  unfold in_window.
  destruct (set_checked_fields at_ id r) as (_ & _ & -> & ->). reflexivity.
Qed.

Lemma filtered_data_checked (now : datetime) (duration : option Z)
    (at_ : datetime) (id : Z) (rows : list DeadlineRow) :
  filtered_data now duration (map (set_checked at_ id) rows) =
  map (set_checked at_ id) (filtered_data now duration rows).
Proof.
  unfold filtered_data.
  induction rows as [|x rows IH]; [reflexivity|].
  cbn [map filter]. rewrite in_window_set_checked.
  destruct (in_window _ _ x); cbn [map]; rewrite IH; reflexivity.
Qed.

Lemma sum_checked_set_checked (at_ : datetime) (id : Z) (rows : list DeadlineRow) :
  (forall d, In d rows -> checked_off d <= 1) ->
  sum_checked rows <= sum_checked (map (set_checked at_ id) rows).
Proof.
  induction rows as [|x rows IH]; intros H; [apply Z.le_refl|].
  cbn [map sum_checked fold_right].
  fold (sum_checked rows). fold (sum_checked (map (set_checked at_ id) rows)).
  assert (sum_checked rows <= sum_checked (map (set_checked at_ id) rows)) as Hl
    by (apply IH; intros d Hd; apply H; right; exact Hd).
  assert (checked_off x <= checked_off (set_checked at_ id x)) as Hx.
  { unfold set_checked. destruct (deadline_id x =? id); cbn [checked_off].
    - apply H. left. reflexivity.
    - apply Z.le_refl. }
  lia.
Qed.

Lemma rate_monotone (s s' : Z) (n : nat) :
  s <= s' -> (rate s n <= rate s' n)%Q.
Proof.
  intros H. destruct n as [|n]; [apply Qle_refl|].
  rewrite !(rate_quotient _ (S n)) by discriminate.
  unfold Qle. cbn [Qnum Qden].
  apply Z.mul_le_mono_nonneg_r; [apply Pos2Z.is_nonneg | exact H].
Qed.

(** X9.  While no flag of a task exceeds 1, a check-off never lowers its
    success rate: for every reference time and every window (the length
    given, 30 days when it is 0 or absent) that is within the range of
    [timedelta] and starts within the range of [datetime], the value of
    [get_success_rate] after [check_off_habit] is at least the value
    before. *)
Theorem check_off_habit_success_rate {A : Affinity} (now now' : datetime)
    (task other : string) (date_ : option datetime) (duration : option Z)
    (c : Connection) :
  let window :=
    match duration with
    | Some d => if d =? 0 then 30 else d
    | None => 30
    end in
  (forall d, In d (deadlines_of other (in_txn c)) -> checked_off d <= 1) ->
  Z.abs window <= timedelta_max_days ->
  datetime_min <= now' - timedelta window <= datetime_max ->
  let c' := snd (check_off_habit now task date_ c) in
  exists q q' : Q,
    get_success_rate now' other duration c = (Returned q, c) /\
    get_success_rate now' other duration c' = (Returned q', c') /\
    (q <= q')%Q.
Proof.
  intros window H Hlen Hstart c'.
  pose proof (window_days_effective duration) as Hw. fold window in Hw.
  assert (window_in_range now' duration = true) as Hin
    by (apply window_in_range_iff; rewrite Hw; split; assumption).
  eexists _, _.
  split; [apply (get_success_rate_run now' other duration c Hin)|].
  split; [apply (get_success_rate_run now' other duration c' Hin)|].
  cbv zeta. subst c'. rewrite check_off_habit_effect. cbv zeta.
  destruct (scan_for_id _ _) as [id|]; cbn [snd in_txn]; [|apply Qle_refl].
  rewrite deadlines_of_check_off, filtered_data_checked, length_map.
  apply rate_monotone, sum_checked_set_checked.
  intros d Hd. apply H. unfold filtered_data in Hd.
  apply filter_In in Hd. apply Hd.
Qed.

Lemma check_off_habit_success_rate_witness :
  let c' := snd (check_off_habit 0 "run" (Some (strptime_date 19732)) scenario) in
  exists q q' : Q,
    get_success_rate (strptime_date 19740) "run" (Some 30) scenario
      = (Returned q, scenario) /\
    get_success_rate (strptime_date 19740) "run" (Some 30) c' = (Returned q', c') /\
    (q <= q')%Q.
Proof.
  refine (check_off_habit_success_rate 0 (strptime_date 19740) "run" "run"
            (Some (strptime_date 19732)) (Some 30) scenario _ _ _).
  - intros d Hin. vm_compute in Hin.
    repeat (destruct Hin as [<-|Hin]; [vm_compute; discriminate|]).
    destruct Hin.
  - by_computation.
  - split; by_computation.
Defined.

(** ** The span of a schedule *)

Lemma deadlines_of_inserted_same {A : Affinity} (now : datetime)
    (task : string) (period : Z) (duration : option Z) (date_ : option date)
    (t : Tables) :
  let d := match duration with Some d => d | None => 365 end in
  let start := match date_ with Some s => s | None => strftime_date now end in
  deadlines_of task (inserted now task period duration date_ t) =
  deadlines_of task t ++
  map (scheduled_row task start period (deadlines_seq t))
      (written start period (d / period + 1)).
Proof.
  intros d start. unfold deadlines_of, inserted. cbn [deadlines].
  rewrite filter_app. f_equal. apply deadlines_of_scheduled.
Qed.

(** The rows of a task that had none, after [insert_habit], whatever its
    outcome: rows of the schedule. *)
Lemma first_schedule_rows {A : Affinity} (now : datetime) (task : string)
    (period : Z) (duration : option Z) (date_ : option date)
    (c : Connection) (r : DeadlineRow) :
  deadlines_of task (in_txn c) = [] ->
  let start := match date_ with Some s => s | None => strftime_date now end in
  In r (deadlines_of task
          (in_txn (snd (insert_habit now task period duration date_ c)))) ->
  exists i, 0 <= i /\
    r = scheduled_row task start period (deadlines_seq (in_txn c)) i.
Proof.
  intros Hfresh start. rewrite insert_habit_in_txn. cbv zeta.
  destruct (in_int64 period && in_int64 _); [|rewrite Hfresh; intros []].
  destruct (period =? 0).
  - unfold deadlines_of, sql_insert_habit. cbn [deadlines].
    fold (deadlines_of task (in_txn c)). rewrite Hfresh. intros [].
  - rewrite deadlines_of_inserted_same, Hfresh. cbn [app].
    intros Hr. apply in_map_iff in Hr. destruct Hr as (i & <- & Hi).
    apply written_In in Hi. exists i. split; [lia | reflexivity].
Qed.

(** The rows of the task after an [insert_habit] that returned. *)
Lemma insert_habit_returned {A : Affinity} (now : datetime) (task : string)
    (period : Z) (duration : option Z) (date_ : option date)
    (c : Connection) :
  fst (insert_habit now task period duration date_ c) = Returned tt ->
  let d := match duration with Some d => d | None => 365 end in
  let start := match date_ with Some s => s | None => strftime_date now end in
  period <> 0 /\
  deadlines_of task
    (in_txn (snd (insert_habit now task period duration date_ c))) =
  deadlines_of task (in_txn c) ++
  map (scheduled_row task start period (deadlines_seq (in_txn c)))
      (range (d / period + 1)).
Proof.
  rewrite insert_habit_effect. cbv zeta.
  destruct (in_int64 period && in_int64 _); [|discriminate].
  destruct (Z.eqb_spec period 0); [discriminate|].
  destruct (forallb _ _) eqn:E; [|discriminate].
  intros _. split; [assumption|]. cbn [snd in_txn].
  rewrite deadlines_of_inserted_same. unfold written.
  rewrite (take_while_all _ _ E). reflexivity.
Qed.

Lemma check_off_habit_returns {A : Affinity} (now : datetime) (task : string)
    (date_ : option datetime) (c : Connection) (r : DeadlineRow) :
  let at_ := match date_ with Some d => d | None => now end in
  In r (deadlines_of task (in_txn c)) ->
  from_date r <= at_ -> at_ <= to_date r ->
  fst (check_off_habit now task date_ c) = Returned tt.
Proof.
  intros at_ Hin Hlo Hhi. rewrite check_off_habit_effect. cbv zeta. fold at_.
  destruct (scan_for_id_first at_ (deadlines_of task (in_txn c)))
    as (l1 & r' & l2 & _ & _ & _ & ->); [|reflexivity].
  exists r. split; [exact Hin|]. unfold contains, between.
  apply andb_true_iff. split; apply Z.leb_le; assumption.
Qed.

Lemma check_off_habit_raises {A : Affinity} (now : datetime) (task : string)
    (date_ : option datetime) (c : Connection) :
  let at_ := match date_ with Some d => d | None => now end in
  (forall r, In r (deadlines_of task (in_txn c)) ->
             at_ < from_date r \/ to_date r < at_) ->
  check_off_habit now task date_ c = (Raised UnboundLocalError, c).
Proof.
  intros at_ H. rewrite check_off_habit_effect. cbv zeta. fold at_.
  assert (scan_for_id at_ (deadlines_of task (in_txn c)) = None) as ->;
    [|reflexivity].
  apply scan_for_id_none, Forall_forall. intros r Hr.
  unfold contains, between.
  destruct (H r Hr) as [Hlt|Hlt].
  - destruct (Z.leb_spec (from_date r) at_); [lia | reflexivity].
  - destruct (Z.leb_spec at_ (to_date r)); [lia|]. apply andb_false_r.
Qed.

(** X10.  After an [insert_habit] with [period > 0] and [duration > 0]
    that returned normally, the habit can be checked off at every instant
    from the start date to the end of its last interval, which lies after
    [start + duration]; when the task had no interval before, a check-off
    at any instant outside that span raises [UnboundLocalError]. *)
Theorem check_off_within_schedule {A : Affinity} (now now' : datetime)
    (task : string) (period duration : Z) (date_ : option date)
    (date' : option datetime) (c : Connection) :
  0 < period -> 0 < duration ->
  fst (insert_habit now task period (Some duration) date_ c) = Returned tt ->
  let start := match date_ with Some s => s | None => strftime_date now end in
  let first := strptime_date start in
  let last := first + timedelta ((duration / period + 1) * period) in
  let at_ := match date' with Some d => d | None => now' end in
  let c1 := snd (insert_habit now task period (Some duration) date_ c) in
  first + timedelta duration < last /\
  (first <= at_ <= last ->
   fst (check_off_habit now' task date' c1) = Returned tt) /\
  (deadlines_of task (in_txn c) = [] -> at_ < first \/ last < at_ ->
   check_off_habit now' task date' c1 = (Raised UnboundLocalError, c1)).
Proof.
  intros Hp Hd Hret start first last at_ c1.
  destruct (insert_habit_returned now task period (Some duration) date_ c Hret)
    as [_ Hrows].
  cbv zeta in Hrows. fold start c1 in Hrows.
  assert (0 <= duration / period) as Hq by (apply Z.div_pos; lia).
  set (count := duration / period + 1) in *.
  set (P := period * usec_per_day).
  assert (0 < P) as HP by (unfold P, usec_per_day; lia).
  assert (forall i, timedelta (i * period) = i * P) as Htd
    by (intros i; unfold timedelta, P; ring).
  assert (duration < count * period) as Hspan.
  { pose proof (Z.mul_succ_div_gt duration period Hp). unfold count. lia. }
  split.
  { subst last. unfold timedelta, usec_per_day. lia. }
  split.
  - intros [Hlo Hhi].
    set (x := at_ - first).
    set (i := Z.min (x / P) (count - 1)).
    assert (0 <= x) as Hx0 by (unfold x; lia).
    assert (x <= count * P) as Hx1
      by (unfold x; subst last; rewrite Htd in Hhi; lia).
    assert (0 <= x / P) as Hq0 by (apply Z.div_pos; lia).
    assert (P * (x / P) <= x) as Hq1 by (apply Z.mul_div_le; lia).
    assert (x < P * Z.succ (x / P)) as Hq2 by (apply Z.mul_succ_div_gt; lia).
    assert (0 <= i < count) as Hi by (unfold i; lia).
    apply (check_off_habit_returns now' task date' c1
             (scheduled_row task start period (deadlines_seq (in_txn c)) i)).
    + rewrite Hrows.
      apply in_or_app. right. apply in_map. apply range_In. exact Hi.
    + cbn [scheduled_row from_date]. fold first at_. rewrite Htd.
      assert (i * P <= x); [|unfold x in *; lia].
      unfold i. destruct (Z.min_spec (x / P) (count - 1)) as [[_ ->]|[Hc ->]].
      * lia.
      * assert ((count - 1) * P <= x / P * P)
          by (apply Z.mul_le_mono_nonneg_r; lia).
        lia.
    + cbn [scheduled_row to_date]. fold first at_. rewrite Htd.
      assert (x <= (i + 1) * P); [|unfold x in *; lia].
      unfold i. destruct (Z.min_spec (x / P) (count - 1)) as [[_ ->]|[_ ->]].
      * lia.
      * replace (count - 1 + 1) with count by lia. exact Hx1.
  - intros Hfresh Hout.
    apply check_off_habit_raises. fold at_.
    intros r Hr. rewrite Hrows, Hfresh in Hr. cbn [app] in Hr.
    apply in_map_iff in Hr. destruct Hr as (i & <- & Hi).
    apply range_In in Hi.
    cbn [scheduled_row from_date to_date]. fold first.
    rewrite !Htd. subst last. rewrite Htd in Hout.
    assert (0 <= i * P) by (apply Z.mul_nonneg_nonneg; lia).
    assert ((i + 1) * P <= count * P)
      by (apply Z.mul_le_mono_nonneg_r; lia).
    destruct Hout as [Hout|Hout]; [left | right]; lia.
Qed.

(** In the scenario, a check-off on 2024-01-18 returns, and one on
    2024-03-01, after the last interval, raises. *)
Lemma check_off_within_schedule_witness :
  fst (check_off_habit 0 "run" (Some (strptime_date 19740)) scenario)
    = Returned tt /\
  check_off_habit 0 "run" (Some (strptime_date 19783)) scenario
    = (Raised UnboundLocalError, scenario).
Proof.
  split.
  - refine (proj1 (proj2
              (check_off_within_schedule 0 0 "run" 7 30 (Some day_2024_01_01)
                 (Some (strptime_date 19740)) fresh_connection _ _ _)) _);
      try by_computation.
    split; by_computation.
  - refine (proj2 (proj2
              (check_off_within_schedule 0 0 "run" 7 30 (Some day_2024_01_01)
                 (Some (strptime_date 19783)) fresh_connection _ _ _)) _ _);
      try by_computation.
    right. by_computation.
Defined.

(** X11.  A habit created with a negative period can never be checked
    off: its intervals, if any, end before they begin, so when the task had
    no interval before, [check_off_habit] raises [UnboundLocalError] at
    every instant. *)
Theorem negative_period_never_checked {A : Affinity} (now now' : datetime)
    (task : string) (period : Z) (duration : option Z) (date_ : option date)
    (date' : option datetime) (c : Connection) :
  period < 0 ->
  deadlines_of task (in_txn c) = [] ->
  let c1 := snd (insert_habit now task period duration date_ c) in
  (forall r, In r (deadlines_of task (in_txn c1)) -> to_date r < from_date r) /\
  check_off_habit now' task date' c1 = (Raised UnboundLocalError, c1).
Proof.
  intros Hp Hfresh c1.
  assert (forall r, In r (deadlines_of task (in_txn c1)) ->
                    to_date r < from_date r) as Hrev.
  { intros r Hr. subst c1.
    destruct (first_schedule_rows now task period duration date_ c r Hfresh Hr)
      as (i & _ & ->).
    cbn [scheduled_row from_date to_date]. unfold timedelta, usec_per_day. lia. }
  split; [exact Hrev|].
  apply check_off_habit_raises. intros r Hr. specialize (Hrev r Hr). lia.
Qed.

Lemma negative_period_never_checked_witness :
  let c1 := snd (insert_habit 0 "run" (-7) (Some (-30)) (Some day_2024_01_01)
                   fresh_connection) in
  (forall r, In r (deadlines_of "run" (in_txn c1)) -> to_date r < from_date r) /\
  check_off_habit 0 "run" (Some (strptime_date 19720)) c1
    = (Raised UnboundLocalError, c1).
Proof.
  refine (negative_period_never_checked 0 0 "run" (-7) (Some (-30))
            (Some day_2024_01_01) (Some (strptime_date 19720))
            fresh_connection _ _).
  - reflexivity.
  - reflexivity.
Defined.

Example negative_period_intervals :
  map (fun d => (from_date d / usec_per_day, to_date d / usec_per_day))
      (deadlines_of "run"
         (in_txn (snd (insert_habit 0 "run" (-7) (Some (-30))
                         (Some day_2024_01_01) fresh_connection)))) =
  [ (19723, 19716); (19716, 19709); (19709, 19702); (19702, 19695);
    (19695, 19688) ].
Proof. vm_compute. reflexivity. Qed.

(** ** Windows that see no interval *)

Lemma in_window_false (from_ current_time : datetime) (r : DeadlineRow) :
  (to_date r < from_ \/ current_time < to_date r) ->
  (from_date r < from_ \/ current_time < from_date r) ->
  in_window from_ current_time r = false.
Proof.
  intros Ht Hf. unfold in_window, between.
  apply orb_false_iff. split; apply andb_false_iff.
  - destruct Ht; [left | right]; apply Z.leb_gt; assumption.
  - destruct Hf; [left | right]; apply Z.leb_gt; assumption.
Qed.

(** X12.  The window test looks at interval bounds only.  After an
    [insert_habit] that returned normally for a task without earlier
    intervals: when the whole window [[now - w, now]], with [w > 0] within
    the range of [timedelta], lies strictly inside one interval of the
    habit, [get_success_rate] returns 0.0, also after that very interval has
    been checked off. *)
Theorem success_rate_inside_one_interval {A : Affinity} (now now' now_ : datetime)
    (task : string) (period duration w i : Z) (date_ : option date)
    (at_ : datetime) (c : Connection) :
  0 < period -> 0 < w <= timedelta_max_days ->
  deadlines_of task (in_txn c) = [] ->
  fst (insert_habit now task period (Some duration) date_ c) = Returned tt ->
  datetime_min <= now_ - timedelta w -> now_ <= datetime_max ->
  let start := match date_ with Some s => s | None => strftime_date now end in
  let from_i := strptime_date start + timedelta (i * period) in
  let to_i := strptime_date start + timedelta ((i + 1) * period) in
  0 <= i < duration / period + 1 ->
  from_i < now_ - timedelta w -> now_ < to_i ->
  from_i < at_ < to_i ->
  let c1 := snd (insert_habit now task period (Some duration) date_ c) in
  let c2 := snd (check_off_habit now' task (Some at_) c1) in
  fst (check_off_habit now' task (Some at_) c1) = Returned tt /\
  (exists r, In r (deadlines_of task (in_txn c2)) /\
             from_date r = from_i /\ to_date r = to_i /\ checked_off r = 1) /\
  get_success_rate now_ task (Some w) c1 = (Returned 0%Q, c1) /\
  get_success_rate now_ task (Some w) c2 = (Returned 0%Q, c2).
Proof.
  intros Hp Hw Hfresh Hins Hwlo Hwhi start from_i to_i Hi Hlo Hhi Hat c1 c2.
  set (P := period * usec_per_day).
  assert (0 < P) as HP by (unfold P, usec_per_day; lia).
  assert (forall k, timedelta (k * period) = k * P) as Htd
    by (intros k; unfold timedelta, P; ring).
  assert (deadlines_of task (in_txn c1) =
          map (scheduled_row task start period (deadlines_seq (in_txn c)))
              (range (duration / period + 1))) as Hrows.
  { destruct (insert_habit_returned now task period (Some duration) date_ c
                Hins) as [_ H].
    cbv zeta in H. rewrite Hfresh in H. exact H. }
  assert (window_in_range now_ (Some w) = true) as Hrange.
  { apply window_in_range_iff.
    assert (window_days (Some w) = w) as ->.
    { unfold window_days, truthy. destruct (Z.eqb_spec w 0); [lia | reflexivity]. }
    unfold timedelta, usec_per_day in *. lia. }
  assert (window_days (Some w) = w) as Hwin.
  { unfold window_days, truthy. destruct (Z.eqb_spec w 0); [lia | reflexivity]. }
  assert (filtered_data now_ (Some w) (deadlines_of task (in_txn c1)) = [])
    as Hnone.
  { unfold filtered_data. rewrite Hwin. apply filter_none.
    intros r Hr. rewrite Hrows in Hr.
    apply in_map_iff in Hr. destruct Hr as (k & <- & _).
    subst from_i to_i. rewrite !Htd in Hlo, Hhi.
    assert (forall m, m <= i -> m * P <= i * P)
      by (intros m Hm; apply Z.mul_le_mono_nonneg_r; lia).
    assert (forall m, i + 1 <= m -> (i + 1) * P <= m * P)
      by (intros m Hm; apply Z.mul_le_mono_nonneg_r; lia).
    apply in_window_false; cbn [scheduled_row from_date to_date];
      fold start; rewrite Htd.
    - destruct (Z_le_gt_dec (k + 1) i) as [Hk|Hk].
      + left. specialize (H (k + 1) Hk). lia.
      + right. assert (i + 1 <= k + 1) as Hk' by lia.
        specialize (H0 (k + 1) Hk'). lia.
    - destruct (Z_le_gt_dec k i) as [Hk|Hk].
      + left. specialize (H k Hk). lia.
      + right. assert (i + 1 <= k) as Hk' by lia.
        specialize (H0 k Hk'). lia. }
  assert (fst (check_off_habit now' task (Some at_) c1) = Returned tt) as Hcret.
  { apply (check_off_habit_returns now' task (Some at_) c1
             (scheduled_row task start period (deadlines_seq (in_txn c)) i)).
    - rewrite Hrows. apply in_map, range_In. exact Hi.
    - cbn [scheduled_row from_date]. fold start from_i. lia.
    - cbn [scheduled_row to_date]. fold start to_i. lia. }
  split; [exact Hcret|].
  subst c2. rewrite check_off_habit_effect in Hcret |- *. cbv zeta in Hcret |- *.
  destruct (scan_for_id at_ (deadlines_of task (in_txn c1))) as [id|] eqn:E;
    [|discriminate Hcret].
  cbn [snd in_txn]. rewrite deadlines_of_check_off.
  split.
  { destruct (scan_for_id_some _ _ _ E) as (l1 & r & l2 & Hl & -> & _ & Hr).
    assert (In r (deadlines_of task (in_txn c1))) as Hin
      by (rewrite Hl; apply in_elt).
    exists (set_checked at_ (deadline_id r) r).
    split; [apply in_map, Hin|].
    destruct (set_checked_fields at_ (deadline_id r) r) as (_ & _ & -> & ->).
    rewrite Hrows in Hin. apply in_map_iff in Hin.
    destruct Hin as (k & <- & _).
    unfold contains, between in Hr. apply andb_true_iff in Hr.
    destruct Hr as [Hr1 Hr2]. apply Z.leb_le in Hr1, Hr2.
    cbn [scheduled_row from_date to_date] in Hr1, Hr2. fold start in Hr1, Hr2.
    subst from_i to_i. rewrite !Htd in *.
    assert (k = i) as ->.
    { destruct (Z_le_gt_dec (k + 1) i) as [Hk|Hk].
      - assert ((k + 1) * P <= i * P)
          by (apply Z.mul_le_mono_nonneg_r; lia). lia.
      - destruct (Z_le_gt_dec (i + 1) k) as [Hk'|Hk']; [|lia].
        assert ((i + 1) * P <= k * P)
          by (apply Z.mul_le_mono_nonneg_r; lia). lia. }
    cbn [scheduled_row from_date to_date deadline_id]. fold start.
    rewrite !Htd. split; [reflexivity|]. split; [reflexivity|].
    unfold set_checked. cbn [deadline_id]. rewrite Z.eqb_refl. reflexivity. }
  split.
  - rewrite get_success_rate_run by exact Hrange. cbv zeta.
    rewrite Hnone. reflexivity.
  - rewrite get_success_rate_run by exact Hrange. cbv zeta. cbn [in_txn].
    rewrite deadlines_of_check_off, filtered_data_checked, Hnone. reflexivity.
Qed.

(** A weekly habit from 2024-01-01, checked off on 2024-01-11; a window
    of two days before 2024-01-12 lies inside the second week. *)
Lemma success_rate_inside_one_interval_witness :
  let c1 := scenario in
  let c2 := snd (check_off_habit 0 "run" (Some (strptime_date 19733)) c1) in
  fst (check_off_habit 0 "run" (Some (strptime_date 19733)) c1) = Returned tt /\
  (exists r, In r (deadlines_of "run" (in_txn c2)) /\
             from_date r = strptime_date 19730 /\
             to_date r = strptime_date 19737 /\ checked_off r = 1) /\
  get_success_rate (strptime_date 19734) "run" (Some 2) c1 = (Returned 0%Q, c1) /\
  get_success_rate (strptime_date 19734) "run" (Some 2) c2 = (Returned 0%Q, c2).
Proof.
  apply (success_rate_inside_one_interval 0 0 (strptime_date 19734) "run"
           7 30 2 1 (Some day_2024_01_01) (strptime_date 19733)
           fresh_connection);
    try reflexivity; vm_compute; try split; try reflexivity;
    intros H; discriminate H.
Defined.

(** X13.  With a negative window length the window is empty: when the
    length is within the range of [timedelta] and [now - w] within the
    range of [datetime], [get_success_rate] returns 0.0 whatever the store
    holds; otherwise it raises [OverflowError]. *)
Theorem success_rate_negative_window {A : Affinity} (now : datetime)
    (task : string) (w : Z) (c : Connection) :
  w < 0 ->
  let in_range :=
    - timedelta_max_days <= w /\
    datetime_min <= now - timedelta w <= datetime_max in
  (in_range -> get_success_rate now task (Some w) c = (Returned 0%Q, c)) /\
  (~ in_range ->
   get_success_rate now task (Some w) c = (Raised OverflowError, c)).
Proof.
  intros Hw in_range.
  assert (window_days (Some w) = w) as Hwd.
  { unfold window_days, truthy. destruct (Z.eqb_spec w 0); [lia | reflexivity]. }
  pose proof (window_in_range_iff now (Some w)) as Hiff. rewrite Hwd in Hiff.
  rewrite get_success_rate_effect. cbv zeta.
  destruct (window_in_range now (Some w)).
  - split; [|intros Hn; exfalso; apply Hn].
    + intros _.
      assert (filtered_data now (Some w) (deadlines_of task (in_txn c)) = [])
        as ->; [|reflexivity].
      unfold filtered_data. rewrite Hwd.
      apply filter_none. intros r _.
      assert (now < now - timedelta w) by (unfold timedelta, usec_per_day; lia).
      unfold in_window, between.
      apply orb_false_iff. split; apply andb_false_iff.
      * destruct (Z.leb_spec (now - timedelta w) (to_date r));
          [|left; reflexivity].
        right. apply Z.leb_gt. lia.
      * destruct (Z.leb_spec (now - timedelta w) (from_date r));
          [|left; reflexivity].
        right. apply Z.leb_gt. lia.
    + destruct (proj1 Hiff eq_refl) as [H1 H2]. split; [lia | exact H2].
  - split; [|reflexivity].
    intros [H1 H2]. assert (false = true) as E; [|discriminate E].
    apply Hiff. split; [lia | exact H2].
Qed.

Lemma success_rate_negative_window_witness :
  (- timedelta_max_days <= -30 /\
   datetime_min <= strptime_date 19740 - timedelta (-30) <= datetime_max ->
   get_success_rate (strptime_date 19740) "run" (Some (-30)) week_two_done
     = (Returned 0%Q, week_two_done)) /\
  (~ (- timedelta_max_days <= -30 /\
      datetime_min <= strptime_date 19740 - timedelta (-30) <= datetime_max) ->
   get_success_rate (strptime_date 19740) "run" (Some (-30)) week_two_done
     = (Raised OverflowError, week_two_done)).
Proof.
  refine (success_rate_negative_window (strptime_date 19740) "run" (-30)
            week_two_done _).
  reflexivity.
Defined.

Example success_rate_negative_window_values :
  get_success_rate (strptime_date 19740) "run" (Some (-30)) week_two_done
    = (Returned 0%Q, week_two_done) /\
  get_success_rate (strptime_date 19740) "run" (Some (-3000000)) week_two_done
    = (Raised OverflowError, week_two_done).
Proof. split; vm_compute; reflexivity. Qed.

(** ** Bounds of the streak *)

Lemma filter_completed_all (seg : list DeadlineRow) :
  Forall (fun d => completed d = true) seg -> filter completed seg = seg.
Proof.
  induction 1 as [|d seg Hd _ IH]; [reflexivity|].
  cbn [filter]. rewrite Hd, IH. reflexivity.
Qed.

Lemma run_le_completed (rows seg : list DeadlineRow) :
  is_run rows seg -> (List.length seg <= count_completed rows)%nat.
Proof.
  intros [(l1 & l2 & ->) Hall]. unfold count_completed.
  rewrite !filter_app, !length_app, (filter_completed_all seg Hall). lia.
Qed.

Lemma count_completed_le_length (rows : list DeadlineRow) :
  (count_completed rows <= List.length rows)%nat.
Proof. unfold count_completed. apply filter_length_le. Qed.

(** X14.  The streak is bounded by what was checked off: [get_streak]
    returns a value between 0 and the number of completed intervals of the
    task, which is at most the number of its intervals; and it is 0 exactly
    when no interval of the task is completed. *)
Theorem get_streak_bounds {A : Affinity} (task : string) (c : Connection) :
  let rows := deadlines_of task (in_txn c) in
  exists s : Z,
    get_streak task c = (Returned s, c) /\
    0 <= s <= Z.of_nat (count_completed rows) /\
    Z.of_nat (count_completed rows) <= Z.of_nat (List.length rows) /\
    (s = 0 <-> forall d, In d rows -> checked_off d = 0).
Proof.
  intros rows. eexists. split; [apply get_streak_run|]. fold rows.
  split.
  { split; [lia|]. apply Nat2Z.inj_le.
    destruct (longest_run_attained rows) as (seg & Hrun & <-).
    apply run_le_completed, Hrun. }
  split; [apply Nat2Z.inj_le, count_completed_le_length|].
  split.
  - intros Hs d Hd.
    destruct (Z.eqb_spec (checked_off d) 0) as [E|E]; [exact E|].
    assert (completed d = true) as Hc.
    { unfold completed, truthy.
      destruct (Z.eqb_spec (checked_off d) 0); [contradiction | reflexivity]. }
    pose proof (longest_run_positive rows d Hd Hc). lia.
  - intros H. rewrite longest_run_none; [reflexivity|].
    intros d Hd. unfold completed, truthy. rewrite (H d Hd). reflexivity.
Qed.

(** ** Listing what was inserted *)

(** X15.  A habit whose creation returned normally is listed: right after
    that [insert_habit], [list_habits] without a filter returns the earlier rows
    followed by the new row, which carries the task name, period, start
    date and duration given and the next habit id; [list_habits] with that
    period as filter returns the earlier rows of that period followed by the
    new row; and with any other non-zero filter it returns what it returned
    before. *)
Theorem insert_habit_listed {A : Affinity} (now : datetime) (task : string) (period : Z)
    (duration : option Z) (date_ : option date) (c : Connection) :
  fst (insert_habit now task period duration date_ c) = Returned tt ->
  let d := match duration with Some d => d | None => 365 end in
  let start := match date_ with Some s => s | None => strftime_date now end in
  let row := mkHabit (habits_seq (in_txn c) + 1) task period start d in
  let c1 := snd (insert_habit now task period duration date_ c) in
  list_habits None c1 = (Returned (habits (in_txn c) ++ [row]), c1) /\
  (exists earlier,
     list_habits (Some period) c = (Returned earlier, c) /\
     list_habits (Some period) c1 = (Returned (earlier ++ [row]), c1)) /\
  (forall q, q <> 0 -> q <> period ->
     fst (list_habits (Some q) c1) = fst (list_habits (Some q) c)).
Proof.
  intros Hret d start row c1.
  assert (period <> 0 /\ habits (in_txn c1) = habits (in_txn c) ++ [row])
    as [Hp Hh].
  { subst c1. revert Hret. rewrite insert_habit_effect. cbv zeta.
    destruct (in_int64 period && in_int64 _); [|discriminate].
    destruct (Z.eqb_spec period 0); [discriminate|].
    destruct (forallb _ _); [|discriminate].
    intros _. split; [assumption | reflexivity]. }
  split; [unfold list_habits, search_habits; rewrite Hh; reflexivity|].
  split.
  - eexists. unfold list_habits, truthy.
    destruct (Z.eqb_spec period 0); [contradiction|]. cbn [negb].
    unfold search_habits_by_period. split; [reflexivity|].
    rewrite Hh, filter_app. cbn [filter row habit_period].
    rewrite Z.eqb_refl. reflexivity.
  - intros q Hq Hqp. unfold list_habits, truthy.
    destruct (Z.eqb_spec q 0); [contradiction|]. cbn [negb].
    unfold search_habits_by_period. cbn [fst].
    rewrite Hh, filter_app. cbn [filter row habit_period].
    destruct (Z.eqb_spec period q); [congruence|].
    rewrite app_nil_r. reflexivity.
Qed.

Lemma insert_habit_listed_witness :
  let row := mkHabit 1 "run" 7 day_2024_01_01 30 in
  list_habits None scenario = (Returned ([] ++ [row]), scenario) /\
  (exists earlier,
     list_habits (Some 7) fresh_connection = (Returned earlier, fresh_connection) /\
     list_habits (Some 7) scenario = (Returned (earlier ++ [row]), scenario)) /\
  (forall q, q <> 0 -> q <> 7 ->
     fst (list_habits (Some q) scenario)
       = fst (list_habits (Some q) fresh_connection)).
Proof.
  refine (insert_habit_listed 0 "run" 7 (Some 30) (Some day_2024_01_01)
            fresh_connection _).
  vm_compute. reflexivity.
Defined.

(** ** Deleting everything *)

(** X16.  [delete_habit] without a task name, and also with the empty
    string as task name, removes every habit row and every deadline row of
    every task and commits.  The id counters are kept: in a store that
    satisfies the invariant, a habit created afterwards gets an id above
    every habit id present before the deletion, and so do its deadline
    rows with respect to the earlier deadline ids. *)
Theorem delete_habit_everything {A : Affinity} (c : Connection) :
  store_ok (in_txn c) ->
  let c1 := snd (exec (Call_delete_habit (Some ""%string)) c) in
  exec (Call_delete_habit (Some ""%string)) c = exec (Call_delete_habit None) c /\
  fst (exec (Call_delete_habit None) c) = Returned VNone /\
  habits (in_txn c1) = [] /\ deadlines (in_txn c1) = [] /\
  committed c1 = in_txn c1 /\
  (forall now task period duration date_ h h',
     period <> 0 ->
     In h (habits (in_txn (snd (insert_habit now task period duration date_ c1)))) ->
     In h' (habits (in_txn c)) ->
     habit_id h' < habit_id h) /\
  (forall now task period duration date_ r r',
     In r (deadlines (in_txn (snd (insert_habit now task period duration date_ c1)))) ->
     In r' (deadlines (in_txn c)) ->
     deadline_id r' < deadline_id r).
Proof.
  intros ((_ & Hdle) & _ & Hhle & _ & _) c1.
  rewrite Forall_forall in Hdle, Hhle.
  split; [reflexivity|]. split; [reflexivity|].
  split; [reflexivity|]. split; [reflexivity|]. split; [reflexivity|].
  assert (habits (in_txn c1) = [] /\ deadlines (in_txn c1) = [] /\
          habits_seq (in_txn c1) = habits_seq (in_txn c) /\
          deadlines_seq (in_txn c1) = deadlines_seq (in_txn c))
    as (Hh1 & Hd1 & Hhs & Hds) by (repeat split).
  split.
  - intros now task period duration date_ h h' Hp Hh Hh'.
    rewrite insert_habit_in_txn in Hh. cbv zeta in Hh.
    destruct (in_int64 period && in_int64 _);
      [|rewrite Hh1 in Hh; destruct Hh].
    destruct (Z.eqb_spec period 0); [contradiction|].
    unfold inserted in Hh. cbn [habits] in Hh. rewrite Hh1, Hhs in Hh.
    destruct Hh as [<-|[]]. cbn [habit_id].
    specialize (Hhle h' Hh'). cbn in Hhle. lia.
  - intros now task period duration date_ r r' Hr Hr'.
    rewrite insert_habit_in_txn in Hr. cbv zeta in Hr.
    destruct (in_int64 period && in_int64 _);
      [|rewrite Hd1 in Hr; destruct Hr].
    destruct (period =? 0).
    + unfold sql_insert_habit in Hr. cbn [deadlines] in Hr.
      rewrite Hd1 in Hr. destruct Hr.
    + unfold inserted in Hr. cbn [deadlines] in Hr. rewrite Hd1, Hds in Hr.
      cbn [app] in Hr.
      apply in_map_iff in Hr. destruct Hr as (i & <- & Hi).
      apply written_In in Hi. cbn [scheduled_row deadline_id].
      specialize (Hdle r' Hr'). cbn in Hdle. lia.
Qed.

Lemma store_ok_scenario : store_ok (in_txn scenario).
Proof.
  apply (session_from_store_ok
           [Call_insert_habit 0 "run" 7 (Some 30) (Some day_2024_01_01)]
           fresh_connection store_ok_empty store_ok_empty).
Defined.

Lemma delete_habit_everything_witness :
  let c := scenario in
  let c1 := snd (exec (Call_delete_habit (Some ""%string)) c) in
  exec (Call_delete_habit (Some ""%string)) c = exec (Call_delete_habit None) c /\
  fst (exec (Call_delete_habit None) c) = Returned VNone /\
  habits (in_txn c1) = [] /\ deadlines (in_txn c1) = [] /\
  committed c1 = in_txn c1 /\
  (forall now task period duration date_ h h',
     period <> 0 ->
     In h (habits (in_txn (snd (insert_habit now task period duration date_ c1)))) ->
     In h' (habits (in_txn c)) ->
     habit_id h' < habit_id h) /\
  (forall now task period duration date_ r r',
     In r (deadlines (in_txn (snd (insert_habit now task period duration date_ c1)))) ->
     In r' (deadlines (in_txn c)) ->
     deadline_id r' < deadline_id r).
Proof.
  apply (delete_habit_everything scenario). exact store_ok_scenario.
Defined.

(** ** Duplicated intervals *)

Lemma split_unique {A : Type} (x : A) (a1 b1 a2 b2 : list A) :
  NoDup (a1 ++ x :: b1) -> a1 ++ x :: b1 = a2 ++ x :: b2 -> a1 = a2.
Proof.
  revert a2. induction a1 as [|y a1 IH]; intros a2 Hnd Heq.
  - destruct a2 as [|z a2]; [reflexivity|].
    cbn [app] in Heq. injection Heq as <- Heq.
    apply NoDup_cons_iff in Hnd. destruct Hnd as [Hx _].
    exfalso. apply Hx. rewrite Heq. apply in_elt.
  - destruct a2 as [|z a2]; cbn [app] in Heq.
    + injection Heq as -> Heq. cbn [app] in Hnd.
      apply NoDup_cons_iff in Hnd. destruct Hnd as [Hx _].
      exfalso. apply Hx. apply in_elt.
    + injection Heq as <- Heq. cbn [app] in Hnd.
      apply NoDup_cons_iff in Hnd. destruct Hnd as [_ Hnd].
      f_equal. apply (IH a2 Hnd Heq).
Qed.

(** X17.  An interval of a task that lies within an earlier interval of
    the same task (as when a habit is created twice under one name) is out
    of reach: while deadline ids are distinct, no [check_off_habit] call
    changes that row, whatever the timestamp. *)
Theorem shadowed_interval_unchanged {A : Affinity} (now : datetime) (task : string)
    (date_ : option datetime) (c : Connection)
    (l1 l2 l3 : list DeadlineRow) (r1 r2 : DeadlineRow) :
  wf_tables (in_txn c) ->
  deadlines_of task (in_txn c) = l1 ++ r1 :: l2 ++ r2 :: l3 ->
  from_date r1 <= from_date r2 -> to_date r2 <= to_date r1 ->
  exists l1' l2' l3' r1',
    deadlines_of task (in_txn (snd (check_off_habit now task date_ c))) =
      l1' ++ r1' :: l2' ++ r2 :: l3' /\
    from_date r1' = from_date r1 /\ to_date r1' = to_date r1.
Proof.
  intros [Hnd _] Hrows Hlo Hhi.
  rewrite check_off_habit_effect. cbv zeta.
  set (at_ := match date_ with Some d => d | None => now end).
  destruct (scan_for_id at_ (deadlines_of task (in_txn c))) as [id|] eqn:E;
    cbn [snd in_txn].
  2:{ exists l1, l2, l3, r1. repeat split. exact Hrows. }
  rewrite deadlines_of_check_off, Hrows.
  rewrite map_app. cbn [map]. rewrite map_app. cbn [map].
  assert (NoDup (map deadline_id (deadlines_of task (in_txn c)))) as Hnd'
    by (apply distinct_ids_filter, Hnd).
  assert (deadline_id r2 <> id) as Hne.
  { intros Hid.
    destruct (scan_for_id_some _ _ _ E) as (m1 & r & m2 & Hm & -> & Hm1 & Hr).
    assert (r = r2) as ->.
    { apply (deadline_id_injective (deadlines_of task (in_txn c))).
      - exact Hnd'.
      - rewrite Hm. apply in_elt.
      - rewrite Hrows. apply in_or_app. right. right. apply in_elt.
      - symmetry. exact Hid. }
    assert (NoDup (deadlines_of task (in_txn c))) as Hndl
      by (apply (NoDup_map_inv deadline_id), Hnd').
    assert (m1 = l1 ++ r1 :: l2) as ->.
    { apply (split_unique r2 m1 m2 (l1 ++ r1 :: l2) l3).
      - rewrite <- Hm. exact Hndl.
      - rewrite <- Hm, Hrows, <- app_assoc. reflexivity. }
    rewrite Forall_forall in Hm1. specialize (Hm1 r1 (in_elt r1 l1 l2)).
    unfold contains, between in Hm1, Hr.
    apply andb_true_iff in Hr. destruct Hr as [Hr1 Hr2].
    apply Z.leb_le in Hr1, Hr2.
    apply andb_false_iff in Hm1. destruct Hm1 as [H|H]; apply Z.leb_gt in H; lia. }
  exists (map (set_checked at_ id) l1), (map (set_checked at_ id) l2),
         (map (set_checked at_ id) l3), (set_checked at_ id r1).
  destruct (set_checked_fields at_ id r1) as (_ & _ & -> & ->).
  split; [|split; reflexivity].
  do 4 f_equal. unfold set_checked.
  destruct (Z.eqb_spec (deadline_id r2) id); [contradiction | reflexivity].
Qed.

(** ** Created today *)

(** X18.  A habit created without a start date, with [period > 0] and a
    duration that is not negative, by an [insert_habit] that returned
    normally, can be checked off at once: [check_off_habit] without a date,
    at the clock reading of the creation, returns normally. *)
Theorem created_today_checks_off {A : Affinity} (now : datetime)
    (task : string) (period : Z) (duration : option Z) (c : Connection) :
  0 < period ->
  0 <= match duration with Some d => d | None => 365 end ->
  fst (insert_habit now task period duration None c) = Returned tt ->
  fst (check_off_habit now task None
         (snd (insert_habit now task period duration None c))) = Returned tt.
Proof.
  intros Hp Hd Hret.
  set (d := match duration with Some d => d | None => 365 end) in *.
  assert (0 <= d / period) as Hq by (apply Z.div_pos; lia).
  destruct (insert_habit_returned now task period duration None c Hret)
    as [_ Hrows].
  cbv zeta in Hrows. fold d in Hrows.
  apply (check_off_habit_returns now task None _
           (scheduled_row task (strftime_date now) period
              (deadlines_seq (in_txn c)) 0)).
  - rewrite Hrows.
    apply in_or_app. right. apply in_map, range_In. lia.
  - cbn [scheduled_row from_date].
    unfold strptime_date, strftime_date, timedelta.
    pose proof (Z.mul_div_le now usec_per_day eq_refl). lia.
  - cbn [scheduled_row to_date].
    unfold strptime_date, strftime_date, timedelta.
    pose proof (Z.mul_succ_div_gt now usec_per_day eq_refl).
    assert (usec_per_day <= period * usec_per_day)
      by (unfold usec_per_day; lia).
    lia.
Qed.

Lemma created_today_checks_off_witness :
  fst (check_off_habit (strptime_date 19723 + 43200000000) "run" None
         (snd (insert_habit (strptime_date 19723 + 43200000000) "run" 7 None
                 None fresh_connection))) = Returned tt.
Proof.
  refine (created_today_checks_off (strptime_date 19723 + 43200000000) "run" 7
            None fresh_connection _ _ _); by_computation.
Defined.

Lemma shadowed_interval_unchanged_witness :
  exists l1' l2' l3' r1',
    deadlines_of "run"
      (in_txn (snd (check_off_habit 0 "run" (Some (strptime_date 19725))
                      created_twice))) =
      l1' ++ r1' :: l2' ++ scheduled_row "run" day_2024_01_01 7 1 0 :: l3' /\
    from_date r1' = from_date (scheduled_row "run" day_2024_01_01 7 0 0) /\
    to_date r1' = to_date (scheduled_row "run" day_2024_01_01 7 0 0).
Proof.
  apply (shadowed_interval_unchanged 0 "run" (Some (strptime_date 19725))
           created_twice [] [] []
           (scheduled_row "run" day_2024_01_01 7 0 0)
           (scheduled_row "run" day_2024_01_01 7 1 0)).
  - apply wf_insert_habit, wf_insert_habit, wf_fresh.
  - vm_compute. reflexivity.
  - apply Z.le_refl.
  - apply Z.le_refl.
Defined.

(** The habit created twice: however often it is checked off, the second
    copy stays unchecked, and the success rate stays at one half. *)
Example created_twice_checked :
  let once := snd (check_off_habit 0 "run" (Some (strptime_date 19725))
                     created_twice) in
  let again := snd (check_off_habit 0 "run" (Some (strptime_date 19726)) once) in
  map checked_off (deadlines_of "run" (in_txn again)) = [1; 0] /\
  fst (get_success_rate (strptime_date 19727) "run" (Some 30) again)
    = Returned (Qmake 1 2).
Proof. split; vm_compute; reflexivity. Qed.
